(** * A shallow embedding of the JSON API of [app.py] (XP CKPool WebUI)

    The Flask handlers [api_pool], [api_search], [api_user],
    [api_wallet_workers] and [api_history], the in-memory history
    ([HISTORY], [_bg_sampler]) and the helpers they call
    ([_find_wallet_row], [wallet_last_seen_map]).

    Conventions of the model:
    - A wallet record of the snapshot is a Python dict; a string field is
      [option string] ([None] when the key is absent or holds [None]).
      Python truthiness of a string is [truthy].
    - A Python [str] is a [string] holding its UTF-8 encoding (a lone
      surrogate encoded as by ["surrogatepass"]), so that [str] equality is
      [string] equality; the methods that look at characters ([strip],
      [lower], [in], [re]) work on the code points [utf8_decode] gives, a
      [list Z], with the character tables of Python 3.11 (Unicode 14.0).
    - Floats are modelled by [Q]; [float(...)] raising is a separate case.
    - A request argument or environment variable read through [int(...)]
      is an [arg]: absent, not parsable by [int], or an integer.
    - A SQLite query that raises (connection, missing table, ...) is the
      [None] of the store argument. *)

From Stdlib Require Import ZArith QArith String Ascii Lia.
From stdpp Require Import base gmap strings list sorting.

Open Scope Z_scope.

(* ------------------------------------------------------------------ *)
(** ** Python values *)

(** Truthiness of an optional string: [None] and [""] are falsy. *)
Definition truthy (o : option string) : bool :=
  match o with
  | Some s => negb (String.eqb s "")
  | None => false
  end.

(** [a or b] on optional strings. *)
Definition py_or (a b : option string) : option string :=
  if truthy a then a else b.

(** [int(request.args.get(k, d))] / [int(os.getenv(k, d))]: the argument is
    absent (the default is used), [int] raises on it, or it parses. *)
Inductive arg := Absent | Unparsable | IntArg (n : Z).

(** The value stored under ["hashrate1m"]: absent or [None] ([HrMissing]),
    a number or numeric string ([HrNum]), or a value on which [float]
    raises ([HrBad]). *)
Inductive hr_val := HrMissing | HrNum (q : Q) | HrBad.

(** [float(x or 0)]: [None] when [float] raises. *)
Definition py_float_or0 (h : hr_val) : option Q :=
  match h with
  | HrMissing => Some 0%Q
  | HrNum q => Some q
  | HrBad => None
  end.

(** A wallet record (one dict of [snapshot()["users"]]). The two last
    fields are the keys [api_pool] writes: [None] when the key is absent,
    [Some None] when it holds [None]. *)
Record wallet_rec := mkRec {
  r_wallet : option string;
  r_address : option string;
  r_user : option string;
  r_worker : option string;
  r_hashrate1m : hr_val;
  r_active_workers : option (list string); (** [None]: absent or not a list *)
  r_last_seen_ts : option (option Z);
  r_last_seen : option (option string)
}.

(* ------------------------------------------------------------------ *)
(** ** [api_wallet_workers]: limit and offset *)

(** [limit = max(1, min(int(request.args.get("limit", 50)), 200))],
    [50] when [int] raises. *)
Definition workers_limit (a : arg) : Z :=
  match a with
  | Absent => Z.max 1 (Z.min 50 200)
  | Unparsable => 50
  | IntArg n => Z.max 1 (Z.min n 200)
  end.

(** [offset = max(0, int(request.args.get("offset", 0)))], [0] when [int]
    raises. *)
Definition workers_offset (a : arg) : Z :=
  match a with
  | Absent => Z.max 0 0
  | Unparsable => 0
  | IntArg n => Z.max 0 n
  end.

(* ------------------------------------------------------------------ *)
(** ** [_find_wallet_row] and [api_user] *)

(** [u.get("wallet") or u.get("address")] *)
Definition row_key (u : wallet_rec) : option string :=
  py_or (r_wallet u) (r_address u).

Definition key_eqb (k : option string) (w : string) : bool :=
  match k with
  | Some s => String.eqb s w
  | None => false
  end.

Fixpoint find_wallet_row (wallet : string) (users : list wallet_rec)
    : option wallet_rec :=
  match users with
  | [] => None
  | u :: us => if key_eqb (row_key u) wallet then Some u
               else find_wallet_row wallet us
  end.

(** A dict is falsy when it has no key at all. *)
Definition rec_empty (u : wallet_rec) : bool :=
  match u with
  | mkRec None None None None HrMissing None None None => true
  | _ => false
  end.

Inductive user_resp := UserJson (u : wallet_rec) | NotFound404.

(** [row = _find_wallet_row(wallet); if not row: abort(404)] *)
Definition api_user (wallet : string) (users : list wallet_rec) : user_resp :=
  match find_wallet_row wallet users with
  | Some u => if rec_empty u then NotFound404 else UserJson u
  | None => NotFound404
  end.

(* ------------------------------------------------------------------ *)
(** ** [api_search] *)

(** Character data of Python 3.11 (Unicode 14.0): the code points [c] with
    [c.isspace()]; the zeros of the runs of ten decimal digits
    ([c.isdecimal()]); the one-to-one lower-case mappings as runs
    [(first, last, step, delta)] mapping [c] to [c + delta]; and the
    non-case-ignorable cased code points and the case-ignorable ones, the
    two classes that decide the lowering of U+03A3. *)
Definition space_cps : list Z :=
  [
   9; 10; 11; 12; 13; 28; 29; 30; 31; 32;
   133; 160; 5760; 8192; 8193; 8194; 8195; 8196; 8197; 8198;
   8199; 8200; 8201; 8202; 8232; 8233; 8239; 8287; 12288].

Definition decimal_zeros : list Z :=
  [
   48; 1632; 1776; 1984; 2406; 2534; 2662; 2790; 2918; 3046;
   3174; 3302; 3430; 3558; 3664; 3792; 3872; 4160; 4240; 6112;
   6160; 6470; 6608; 6784; 6800; 6992; 7088; 7232; 7248; 42528;
   43216; 43264; 43472; 43504; 43600; 44016; 65296; 66720; 68912; 69734;
   69872; 69942; 70096; 70384; 70736; 70864; 71248; 71360; 71472; 71904;
   72016; 72784; 73040; 73120; 92768; 92864; 93008; 120782; 120792; 120802;
   120812; 120822; 123200; 123632; 125264; 130032].

Definition lower_runs : list (Z * Z * Z * Z) :=
  [
   (65, 90, 1, 32); (192, 214, 1, 32); (216, 222, 1, 32); (256, 302, 2, 1);
   (306, 310, 2, 1); (313, 327, 2, 1); (330, 374, 2, 1); (376, 376, 1, -121);
   (377, 381, 2, 1); (385, 385, 1, 210); (386, 388, 2, 1); (390, 390, 1, 206);
   (391, 391, 1, 1); (393, 394, 1, 205); (395, 395, 1, 1); (398, 398, 1, 79);
   (399, 399, 1, 202); (400, 400, 1, 203); (401, 401, 1, 1); (403, 403, 1, 205);
   (404, 404, 1, 207); (406, 406, 1, 211); (407, 407, 1, 209); (408, 408, 1, 1);
   (412, 412, 1, 211); (413, 413, 1, 213); (415, 415, 1, 214); (416, 420, 2, 1);
   (422, 422, 1, 218); (423, 423, 1, 1); (425, 425, 1, 218); (428, 428, 1, 1);
   (430, 430, 1, 218); (431, 431, 1, 1); (433, 434, 1, 217); (435, 437, 2, 1);
   (439, 439, 1, 219); (440, 440, 1, 1); (444, 444, 1, 1); (452, 452, 1, 2);
   (453, 453, 1, 1); (455, 455, 1, 2); (456, 456, 1, 1); (458, 458, 1, 2);
   (459, 475, 2, 1); (478, 494, 2, 1); (497, 497, 1, 2); (498, 500, 2, 1);
   (502, 502, 1, -97); (503, 503, 1, -56); (504, 542, 2, 1); (544, 544, 1, -130);
   (546, 562, 2, 1); (570, 570, 1, 10795); (571, 571, 1, 1); (573, 573, 1, -163);
   (574, 574, 1, 10792); (577, 577, 1, 1); (579, 579, 1, -195); (580, 580, 1, 69);
   (581, 581, 1, 71); (582, 590, 2, 1); (880, 882, 2, 1); (886, 886, 1, 1);
   (895, 895, 1, 116); (902, 902, 1, 38); (904, 906, 1, 37); (908, 908, 1, 64);
   (910, 911, 1, 63); (913, 929, 1, 32); (932, 939, 1, 32); (975, 975, 1, 8);
   (984, 1006, 2, 1); (1012, 1012, 1, -60); (1015, 1015, 1, 1); (1017, 1017, 1, -7);
   (1018, 1018, 1, 1); (1021, 1023, 1, -130); (1024, 1039, 1, 80); (1040, 1071, 1, 32);
   (1120, 1152, 2, 1); (1162, 1214, 2, 1); (1216, 1216, 1, 15); (1217, 1229, 2, 1);
   (1232, 1326, 2, 1); (1329, 1366, 1, 48); (4256, 4293, 1, 7264); (4295, 4295, 1, 7264);
   (4301, 4301, 1, 7264); (5024, 5103, 1, 38864); (5104, 5109, 1, 8); (7312, 7354, 1, -3008);
   (7357, 7359, 1, -3008); (7680, 7828, 2, 1); (7838, 7838, 1, -7615); (7840, 7934, 2, 1);
   (7944, 7951, 1, -8); (7960, 7965, 1, -8); (7976, 7983, 1, -8); (7992, 7999, 1, -8);
   (8008, 8013, 1, -8); (8025, 8031, 2, -8); (8040, 8047, 1, -8); (8072, 8079, 1, -8);
   (8088, 8095, 1, -8); (8104, 8111, 1, -8); (8120, 8121, 1, -8); (8122, 8123, 1, -74);
   (8124, 8124, 1, -9); (8136, 8139, 1, -86); (8140, 8140, 1, -9); (8152, 8153, 1, -8);
   (8154, 8155, 1, -100); (8168, 8169, 1, -8); (8170, 8171, 1, -112); (8172, 8172, 1, -7);
   (8184, 8185, 1, -128); (8186, 8187, 1, -126); (8188, 8188, 1, -9); (8486, 8486, 1, -7517);
   (8490, 8490, 1, -8383); (8491, 8491, 1, -8262); (8498, 8498, 1, 28); (8544, 8559, 1, 16);
   (8579, 8579, 1, 1); (9398, 9423, 1, 26); (11264, 11311, 1, 48); (11360, 11360, 1, 1);
   (11362, 11362, 1, -10743); (11363, 11363, 1, -3814); (11364, 11364, 1, -10727); (11367, 11371, 2, 1);
   (11373, 11373, 1, -10780); (11374, 11374, 1, -10749); (11375, 11375, 1, -10783); (11376, 11376, 1, -10782);
   (11378, 11378, 1, 1); (11381, 11381, 1, 1); (11390, 11391, 1, -10815); (11392, 11490, 2, 1);
   (11499, 11501, 2, 1); (11506, 11506, 1, 1); (42560, 42604, 2, 1); (42624, 42650, 2, 1);
   (42786, 42798, 2, 1); (42802, 42862, 2, 1); (42873, 42875, 2, 1); (42877, 42877, 1, -35332);
   (42878, 42886, 2, 1); (42891, 42891, 1, 1); (42893, 42893, 1, -42280); (42896, 42898, 2, 1);
   (42902, 42920, 2, 1); (42922, 42922, 1, -42308); (42923, 42923, 1, -42319); (42924, 42924, 1, -42315);
   (42925, 42925, 1, -42305); (42926, 42926, 1, -42308); (42928, 42928, 1, -42258); (42929, 42929, 1, -42282);
   (42930, 42930, 1, -42261); (42931, 42931, 1, 928); (42932, 42946, 2, 1); (42948, 42948, 1, -48);
   (42949, 42949, 1, -42307); (42950, 42950, 1, -35384); (42951, 42953, 2, 1); (42960, 42960, 1, 1);
   (42966, 42968, 2, 1); (42997, 42997, 1, 1); (65313, 65338, 1, 32); (66560, 66599, 1, 40);
   (66736, 66771, 1, 40); (66928, 66938, 1, 39); (66940, 66954, 1, 39); (66956, 66962, 1, 39);
   (66964, 66965, 1, 39); (68736, 68786, 1, 64); (71840, 71871, 1, 32); (93760, 93791, 1, 32);
   (125184, 125217, 1, 34)].

Definition cased_ranges : list (Z * Z) :=
  [
   (65, 90); (97, 122); (170, 170); (181, 181); (186, 186); (192, 214);
   (216, 246); (248, 442); (444, 447); (452, 659); (661, 687); (880, 883);
   (886, 887); (891, 893); (895, 895); (902, 902); (904, 906); (908, 908);
   (910, 929); (931, 1013); (1015, 1153); (1162, 1327); (1329, 1366); (1376, 1416);
   (4256, 4293); (4295, 4295); (4301, 4301); (4304, 4346); (4349, 4351); (5024, 5109);
   (5112, 5117); (7296, 7304); (7312, 7354); (7357, 7359); (7424, 7467); (7531, 7543);
   (7545, 7578); (7680, 7957); (7960, 7965); (7968, 8005); (8008, 8013); (8016, 8023);
   (8025, 8025); (8027, 8027); (8029, 8029); (8031, 8061); (8064, 8116); (8118, 8124);
   (8126, 8126); (8130, 8132); (8134, 8140); (8144, 8147); (8150, 8155); (8160, 8172);
   (8178, 8180); (8182, 8188); (8450, 8450); (8455, 8455); (8458, 8467); (8469, 8469);
   (8473, 8477); (8484, 8484); (8486, 8486); (8488, 8488); (8490, 8493); (8495, 8500);
   (8505, 8505); (8508, 8511); (8517, 8521); (8526, 8526); (8544, 8575); (8579, 8580);
   (9398, 9449); (11264, 11387); (11390, 11492); (11499, 11502); (11506, 11507); (11520, 11557);
   (11559, 11559); (11565, 11565); (42560, 42605); (42624, 42651); (42786, 42863); (42865, 42887);
   (42891, 42894); (42896, 42954); (42960, 42961); (42963, 42963); (42965, 42969); (42997, 42998);
   (43002, 43002); (43824, 43866); (43872, 43880); (43888, 43967); (64256, 64262); (64275, 64279);
   (65313, 65338); (65345, 65370); (66560, 66639); (66736, 66771); (66776, 66811); (66928, 66938);
   (66940, 66954); (66956, 66962); (66964, 66965); (66967, 66977); (66979, 66993); (66995, 67001);
   (67003, 67004); (68736, 68786); (68800, 68850); (71840, 71903); (93760, 93823); (119808, 119892);
   (119894, 119964); (119966, 119967); (119970, 119970); (119973, 119974); (119977, 119980); (119982, 119993);
   (119995, 119995); (119997, 120003); (120005, 120069); (120071, 120074); (120077, 120084); (120086, 120092);
   (120094, 120121); (120123, 120126); (120128, 120132); (120134, 120134); (120138, 120144); (120146, 120485);
   (120488, 120512); (120514, 120538); (120540, 120570); (120572, 120596); (120598, 120628); (120630, 120654);
   (120656, 120686); (120688, 120712); (120714, 120744); (120746, 120770); (120772, 120779); (122624, 122633);
   (122635, 122654); (125184, 125251); (127280, 127305); (127312, 127337); (127344, 127369)].

Definition case_ignorable_ranges : list (Z * Z) :=
  [
   (39, 39); (46, 46); (58, 58); (94, 94); (96, 96); (168, 168);
   (173, 173); (175, 175); (180, 180); (183, 184); (688, 879); (884, 885);
   (890, 890); (900, 901); (903, 903); (1155, 1161); (1369, 1369); (1375, 1375);
   (1425, 1469); (1471, 1471); (1473, 1474); (1476, 1477); (1479, 1479); (1524, 1524);
   (1536, 1541); (1552, 1562); (1564, 1564); (1600, 1600); (1611, 1631); (1648, 1648);
   (1750, 1757); (1759, 1768); (1770, 1773); (1807, 1807); (1809, 1809); (1840, 1866);
   (1958, 1968); (2027, 2037); (2042, 2042); (2045, 2045); (2070, 2093); (2137, 2139);
   (2184, 2184); (2192, 2193); (2200, 2207); (2249, 2306); (2362, 2362); (2364, 2364);
   (2369, 2376); (2381, 2381); (2385, 2391); (2402, 2403); (2417, 2417); (2433, 2433);
   (2492, 2492); (2497, 2500); (2509, 2509); (2530, 2531); (2558, 2558); (2561, 2562);
   (2620, 2620); (2625, 2626); (2631, 2632); (2635, 2637); (2641, 2641); (2672, 2673);
   (2677, 2677); (2689, 2690); (2748, 2748); (2753, 2757); (2759, 2760); (2765, 2765);
   (2786, 2787); (2810, 2815); (2817, 2817); (2876, 2876); (2879, 2879); (2881, 2884);
   (2893, 2893); (2901, 2902); (2914, 2915); (2946, 2946); (3008, 3008); (3021, 3021);
   (3072, 3072); (3076, 3076); (3132, 3132); (3134, 3136); (3142, 3144); (3146, 3149);
   (3157, 3158); (3170, 3171); (3201, 3201); (3260, 3260); (3263, 3263); (3270, 3270);
   (3276, 3277); (3298, 3299); (3328, 3329); (3387, 3388); (3393, 3396); (3405, 3405);
   (3426, 3427); (3457, 3457); (3530, 3530); (3538, 3540); (3542, 3542); (3633, 3633);
   (3636, 3642); (3654, 3662); (3761, 3761); (3764, 3772); (3782, 3782); (3784, 3789);
   (3864, 3865); (3893, 3893); (3895, 3895); (3897, 3897); (3953, 3966); (3968, 3972);
   (3974, 3975); (3981, 3991); (3993, 4028); (4038, 4038); (4141, 4144); (4146, 4151);
   (4153, 4154); (4157, 4158); (4184, 4185); (4190, 4192); (4209, 4212); (4226, 4226);
   (4229, 4230); (4237, 4237); (4253, 4253); (4348, 4348); (4957, 4959); (5906, 5908);
   (5938, 5939); (5970, 5971); (6002, 6003); (6068, 6069); (6071, 6077); (6086, 6086);
   (6089, 6099); (6103, 6103); (6109, 6109); (6155, 6159); (6211, 6211); (6277, 6278);
   (6313, 6313); (6432, 6434); (6439, 6440); (6450, 6450); (6457, 6459); (6679, 6680);
   (6683, 6683); (6742, 6742); (6744, 6750); (6752, 6752); (6754, 6754); (6757, 6764);
   (6771, 6780); (6783, 6783); (6823, 6823); (6832, 6862); (6912, 6915); (6964, 6964);
   (6966, 6970); (6972, 6972); (6978, 6978); (7019, 7027); (7040, 7041); (7074, 7077);
   (7080, 7081); (7083, 7085); (7142, 7142); (7144, 7145); (7149, 7149); (7151, 7153);
   (7212, 7219); (7222, 7223); (7288, 7293); (7376, 7378); (7380, 7392); (7394, 7400);
   (7405, 7405); (7412, 7412); (7416, 7417); (7468, 7530); (7544, 7544); (7579, 7679);
   (8125, 8125); (8127, 8129); (8141, 8143); (8157, 8159); (8173, 8175); (8189, 8190);
   (8203, 8207); (8216, 8217); (8228, 8228); (8231, 8231); (8234, 8238); (8288, 8292);
   (8294, 8303); (8305, 8305); (8319, 8319); (8336, 8348); (8400, 8432); (11388, 11389);
   (11503, 11505); (11631, 11631); (11647, 11647); (11744, 11775); (11823, 11823); (12293, 12293);
   (12330, 12333); (12337, 12341); (12347, 12347); (12441, 12446); (12540, 12542); (40981, 40981);
   (42232, 42237); (42508, 42508); (42607, 42610); (42612, 42621); (42623, 42623); (42652, 42655);
   (42736, 42737); (42752, 42785); (42864, 42864); (42888, 42890); (42994, 42996); (43000, 43001);
   (43010, 43010); (43014, 43014); (43019, 43019); (43045, 43046); (43052, 43052); (43204, 43205);
   (43232, 43249); (43263, 43263); (43302, 43309); (43335, 43345); (43392, 43394); (43443, 43443);
   (43446, 43449); (43452, 43453); (43471, 43471); (43493, 43494); (43561, 43566); (43569, 43570);
   (43573, 43574); (43587, 43587); (43596, 43596); (43632, 43632); (43644, 43644); (43696, 43696);
   (43698, 43700); (43703, 43704); (43710, 43711); (43713, 43713); (43741, 43741); (43756, 43757);
   (43763, 43764); (43766, 43766); (43867, 43871); (43881, 43883); (44005, 44005); (44008, 44008);
   (44013, 44013); (64286, 64286); (64434, 64450); (65024, 65039); (65043, 65043); (65056, 65071);
   (65106, 65106); (65109, 65109); (65279, 65279); (65287, 65287); (65294, 65294); (65306, 65306);
   (65342, 65342); (65344, 65344); (65392, 65392); (65438, 65439); (65507, 65507); (65529, 65531);
   (66045, 66045); (66272, 66272); (66422, 66426); (67456, 67461); (67463, 67504); (67506, 67514);
   (68097, 68099); (68101, 68102); (68108, 68111); (68152, 68154); (68159, 68159); (68325, 68326);
   (68900, 68903); (69291, 69292); (69446, 69456); (69506, 69509); (69633, 69633); (69688, 69702);
   (69744, 69744); (69747, 69748); (69759, 69761); (69811, 69814); (69817, 69818); (69821, 69821);
   (69826, 69826); (69837, 69837); (69888, 69890); (69927, 69931); (69933, 69940); (70003, 70003);
   (70016, 70017); (70070, 70078); (70089, 70092); (70095, 70095); (70191, 70193); (70196, 70196);
   (70198, 70199); (70206, 70206); (70367, 70367); (70371, 70378); (70400, 70401); (70459, 70460);
   (70464, 70464); (70502, 70508); (70512, 70516); (70712, 70719); (70722, 70724); (70726, 70726);
   (70750, 70750); (70835, 70840); (70842, 70842); (70847, 70848); (70850, 70851); (71090, 71093);
   (71100, 71101); (71103, 71104); (71132, 71133); (71219, 71226); (71229, 71229); (71231, 71232);
   (71339, 71339); (71341, 71341); (71344, 71349); (71351, 71351); (71453, 71455); (71458, 71461);
   (71463, 71467); (71727, 71735); (71737, 71738); (71995, 71996); (71998, 71998); (72003, 72003);
   (72148, 72151); (72154, 72155); (72160, 72160); (72193, 72202); (72243, 72248); (72251, 72254);
   (72263, 72263); (72273, 72278); (72281, 72283); (72330, 72342); (72344, 72345); (72752, 72758);
   (72760, 72765); (72767, 72767); (72850, 72871); (72874, 72880); (72882, 72883); (72885, 72886);
   (73009, 73014); (73018, 73018); (73020, 73021); (73023, 73029); (73031, 73031); (73104, 73105);
   (73109, 73109); (73111, 73111); (73459, 73460); (78896, 78904); (92912, 92916); (92976, 92982);
   (92992, 92995); (94031, 94031); (94095, 94111); (94176, 94177); (94179, 94180); (110576, 110579);
   (110581, 110587); (110589, 110590); (113821, 113822); (113824, 113827); (118528, 118573); (118576, 118598);
   (119143, 119145); (119155, 119170); (119173, 119179); (119210, 119213); (119362, 119364); (121344, 121398);
   (121403, 121452); (121461, 121461); (121476, 121476); (121499, 121503); (121505, 121519); (122880, 122886);
   (122888, 122904); (122907, 122913); (122915, 122916); (122918, 122922); (123184, 123197); (123566, 123566);
   (123628, 123631); (125136, 125142); (125252, 125259); (127995, 127999); (917505, 917505); (917536, 917631);
   (917760, 917999)].

(** [utf8_decode]: the code points of a UTF-8 byte string. A sequence that is
    not UTF-8 decodes, one byte at a time, to U+FFFD. *)
Definition cont_byte (b : Z) : bool := (128 <=? b) && (b <=? 191).

Fixpoint utf8_go (l : list Z) : list Z :=
  match l with
  | [] => []
  | b0 :: r0 =>
      if b0 <? 128 then b0 :: utf8_go r0 else
      match r0 with
      | b1 :: r1 =>
          if (194 <=? b0) && (b0 <=? 223) && cont_byte b1 then
            (b0 - 192) * 64 + (b1 - 128) :: utf8_go r1
          else
          match r1 with
          | b2 :: r2 =>
              if (224 <=? b0) && (b0 <=? 239) && cont_byte b1 && cont_byte b2 &&
                 (negb (b0 =? 224) || (160 <=? b1)) then
                (b0 - 224) * 4096 + (b1 - 128) * 64 + (b2 - 128) :: utf8_go r2
              else
              match r2 with
              | b3 :: r3 =>
                  if (240 <=? b0) && (b0 <=? 244) && cont_byte b1 && cont_byte b2 &&
                     cont_byte b3 && (negb (b0 =? 240) || (144 <=? b1)) &&
                     (negb (b0 =? 244) || (b1 <=? 143)) then
                    (b0 - 240) * 262144 + (b1 - 128) * 4096 + (b2 - 128) * 64 + (b3 - 128)
                      :: utf8_go r3
                  else 65533 :: utf8_go r0
              | [] => 65533 :: utf8_go r0
              end
          | [] => 65533 :: utf8_go r0
          end
      | [] => 65533 :: utf8_go r0
      end
  end.

Definition utf8_decode (s : string) : list Z :=
  utf8_go (List.map (fun a => Z.of_nat (nat_of_ascii a)) (list_ascii_of_string s)).

Definition in_ranges (rs : list (Z * Z)) (c : Z) : bool :=
  existsb (fun '(a, b) => (a <=? c) && (c <=? b)) rs.

(** [c.isspace()] ([Py_UNICODE_ISSPACE]): what [str.strip()] removes and
    what [\s] matches in a [str] pattern. *)
Definition py_isspace (c : Z) : bool := existsb (Z.eqb c) space_cps.

(** [c.isdecimal()]: what [\d] matches in a [str] pattern; the decimal
    digits come in runs of ten, from a zero. *)
Definition is_digit (c : Z) : bool :=
  existsb (fun z => (z <=? c) && (c <=? z + 9)) decimal_zeros.

(** [unicodedata.decimal(c)], the value [float] gives the digit. *)
Definition digit_value (c : Z) : Z :=
  match List.find (fun z => (z <=? c) && (c <=? z + 9)) decimal_zeros with
  | Some z => c - z
  | None => 0
  end.

(** The full lower-case mapping of one code point other than U+03A3; U+0130
    is the only code point whose lower case has two characters. *)
Definition lower_cp (c : Z) : list Z :=
  if c =? 304 then [105; 775]
  else match List.find (fun '(a, b, st, _) => (a <=? c) && (c <=? b) && ((c - a) mod st =? 0))
               lower_runs with
       | Some (_, _, _, d) => [c + d]
       | None => [c]
       end.

Fixpoint first_non_ignorable (l : list Z) : option Z :=
  match l with
  | [] => None
  | c :: l' => if in_ranges case_ignorable_ranges c then first_non_ignorable l' else Some c
  end.

(** [handle_capital_sigma]: U+03A3 lowers to the final sigma when the
    nearest character before it that is not case-ignorable exists and is
    cased, and the nearest one after it is absent or not cased. *)
Definition final_sigma (before_rev after : list Z) : bool :=
  match first_non_ignorable before_rev with
  | Some c =>
      in_ranges cased_ranges c &&
      match first_non_ignorable after with
      | Some c' => negb (in_ranges cased_ranges c')
      | None => true
      end
  | None => false
  end.

Fixpoint lower_go (before_rev l : list Z) : list Z :=
  match l with
  | [] => []
  | c :: l' =>
      (if c =? 931 then [if final_sigma before_rev l' then 962 else 963] else lower_cp c)
      ++ lower_go (c :: before_rev) l'
  end.

(** [s.lower()] *)
Definition py_lower (s : list Z) : list Z := lower_go [] s.

Fixpoint lstrip_chars (l : list Z) : list Z :=
  match l with
  | [] => []
  | c :: l' => if py_isspace c then lstrip_chars l' else l
  end.

(** [s.strip()] *)
Definition py_strip (s : list Z) : list Z := rev (lstrip_chars (rev (lstrip_chars s))).

Fixpoint is_prefix (p l : list Z) : bool :=
  match p, l with
  | [], _ => true
  | x :: p', y :: l' => (x =? y) && is_prefix p' l'
  | _ :: _, [] => false
  end.

(** [needle in hay] *)
Fixpoint py_contains (hay needle : list Z) : bool :=
  is_prefix needle hay ||
  match hay with
  | [] => false
  | _ :: hay' => py_contains hay' needle
  end.

(** [ql in str(f).lower()] for a field [f] that passes [if f]. *)
Definition field_matches (ql : list Z) (f : option string) : bool :=
  match f with
  | Some s => if String.eqb s "" then false else py_contains (py_lower (utf8_decode s)) ql
  | None => false
  end.

(** [any(ql in str(f).lower() for f in fields if f)] with
    [fields = [address, wallet, user, worker]]. *)
Definition rec_matches (ql : list Z) (u : wallet_rec) : bool :=
  existsb (field_matches ql) [r_address u; r_wallet u; r_user u; r_worker u].

Fixpoint search_loop (ql : list Z) (users res : list wallet_rec)
    : list wallet_rec :=
  match users with
  | [] => res
  | u :: us => search_loop ql us (if rec_matches ql u then res ++ [u] else res)
  end.

(** [api_search]: the JSON object [{"query": q, "matches": res}], [q] as
    code points. *)
Definition api_search (q_arg : string) (users : list wallet_rec)
    : list Z * list wallet_rec :=
  let q := py_strip (utf8_decode q_arg) in
  match q with
  | [] => (q, [])
  | _ => (q, search_loop (py_lower q) users [])
  end.

(* ------------------------------------------------------------------ *)
(** ** The snapshot cache and [api_pool] *)

(** The wallet dicts live in a heap; the snapshot's ["users"] list holds
    references to them, so an assignment [u[k] = v] made through the list
    is seen by every later reader of the cache. *)
Abbreviation loc := nat.
Abbreviation heap := (gmap loc wallet_rec).

(** A value of the snapshot's ["pool"] dict: the handler only writes
    integers and strings into it; [PyOther] stands for any other value,
    tagged so that distinct ones stay distinct. *)
Inductive pyval := PyInt (n : Z) | PyStr (s : string) | PyOther (tag : nat).

(** The snapshot's ["pool"] entry: absent, a dict, or a value that rejects
    item assignment ([None], a list, a number, ...). *)
Inductive pool_field :=
  | PoolAbsent
  | PoolDict (d : gmap string pyval)
  | PoolNotDict.

(** The published snapshot: its ["users"] list and its ["pool"] entry; its
    other keys are read by no handler modelled here. *)
Record pool_cache := mkCache {
  pc_heap : heap;
  pc_users : list loc;
  pc_pool : pool_field
}.

(** Modelled from the spec: [CKPoolState.snapshot()] of [ckpool_parser.py]
    (not part of the sources) returns the published snapshot itself, whose
    ["users"] list holds the cache's own wallet dicts (the spec's design
    notes: the wallet dictionaries are mutated in place while other tasks
    read them), as the fallback states [DummyState] and [_EmptyState] of
    [app.py] do with [return self._snapshot]. *)
Definition state_snapshot (c : pool_cache) : list loc := pc_users c.

(** The [MAX(last_seen)] cell of a row: SQL [NULL], a value [int] takes to
    [n], or a value on which [int] raises. *)
Inductive ts_cell := TsNull | TsInt (n : Z) | TsBad.

(** One row [(wallet, MAX(last_seen))] of
    [SELECT wallet, MAX(last_seen) FROM workers_seen GROUP BY wallet]. *)
Definition last_seen_row := (option string * ts_cell)%type.

(** The [for r in rows] loop: a row with a [None] wallet is skipped, and so
    is one whose [int(ts)] raises (the [except] goes on with the loop). *)
Fixpoint last_seen_rows (rows : list last_seen_row) (out : gmap string (option Z))
    : gmap string (option Z) :=
  match rows with
  | [] => out
  | (None, _) :: rs => last_seen_rows rs out
  | (Some w, TsNull) :: rs => last_seen_rows rs (<[w := None]> out)
  | (Some w, TsInt n) :: rs => last_seen_rows rs (<[w := Some n]> out)
  | (Some w, TsBad) :: rs => last_seen_rows rs out
  end.

(** What the query does: [execute] raises, [fetchall] raises, or the rows. *)
Inductive ls_query :=
  | LsExecRaises
  | LsFetchRaises
  | LsRows (rows : list last_seen_row).

(** [wallet_last_seen_map(conn)]; [None] when it raises (a failing
    [fetchall] is outside the [try]). *)
Definition wallet_last_seen_map (q : ls_query) : option (gmap string (option Z)) :=
  match q with
  | LsExecRaises => Some ∅
  | LsFetchRaises => None
  | LsRows rows => Some (last_seen_rows rows ∅)
  end.

(** [last_map] of [api_pool]. The store argument is [None] when [get_db()]
    raises or [wallet_last_seen_map] raises or its [execute] does: each
    gives [last_map = {}] (the [except] around the whole block, and the one
    inside [wallet_last_seen_map]); [Some rows] is a query that returns
    [rows]. A raising [conn.close()] is swallowed. *)
Definition api_pool_last_map (store : option (list last_seen_row))
    : gmap string (option Z) :=
  match store with
  | Some rows => default ∅ (wallet_last_seen_map (LsRows rows))
  | None => ∅
  end.

(** [timeout_s = int(os.getenv("WORKER_TIMEOUT", "300"))], [300] when
    [int] raises. *)
Definition worker_timeout (env : arg) : Z :=
  match env with
  | Absent => 300
  | Unparsable => 300
  | IntArg n => n
  end.

(** [s.split('.', 1)[0]] *)
Fixpoint before_dot (s : string) : string :=
  match s with
  | EmptyString => EmptyString
  | String c s' => if Ascii.eqb c "." then EmptyString else String c (before_dot s')
  end.

(** [wallet = u.get("wallet") or u.get("address") or
    (u.get("user") and str(u.get("user")).split('.', 1)[0])], kept only
    when it passes [if wallet:]. *)
Definition pool_key (u : wallet_rec) : option string :=
  if truthy (r_wallet u) then r_wallet u
  else if truthy (r_address u) then r_address u
  else if truthy (r_user u) then
    match r_user u with
    | Some s => if String.eqb (before_dot s) "" then None else Some (before_dot s)
    | None => None
    end
  else None.

(** The live signals: [float(u.get("hashrate1m") or 0) > 0] (a raising
    [float] leaves [keep] false), or [active_workers] is a non-empty list. *)
Definition live_keep (u : wallet_rec) : bool :=
  match py_float_or0 (r_hashrate1m u) with
  | Some q => negb (Qle_bool q 0)
  | None => false
  end
  || match r_active_workers u with
     | Some (_ :: _) => true
     | _ => false
     end.

(** The [keep] decision on the annotated dict [u]. *)
Definition pool_keep (cutoff : Z) (u : wallet_rec) : bool :=
  match r_last_seen_ts u with
  | Some (Some t) => if cutoff <=? t then true else live_keep u
  | _ => live_keep u
  end.

Section ApiPool.

(** [time.strftime("%Y-%m-%dT%H:%M:%SZ", time.gmtime(t))]; [None] when it
    raises. *)
Variable strftime_utc : Z -> option string.

(** [u["last_seen_ts"] = int(last_ts) if last_ts else None] with
    [last_ts = last_map.get(wallet)] when [wallet] is truthy. *)
Definition derived_ts (m : gmap string (option Z)) (u : wallet_rec) : option Z :=
  match pool_key u with
  | Some w =>
      match m !! w with
      | Some (Some t) => if Z.eqb t 0 then None else Some t
      | _ => None
      end
  | None => None
  end.

(** The two assignments [u["last_seen_ts"] = ...] and [u["last_seen"] = ...]. *)
Definition annotate (m : gmap string (option Z)) (u : wallet_rec) : wallet_rec :=
  let ts := derived_ts m u in
  let ls := match ts with Some t => strftime_utc t | None => None end in
  mkRec (r_wallet u) (r_address u) (r_user u) (r_worker u) (r_hashrate1m u)
        (r_active_workers u) (Some ts) (Some ls).

(** The [for u in users] loop: each dict is annotated in place, then
    appended to [filtered] when kept. *)
Fixpoint pool_loop (m : gmap string (option Z)) (cutoff : Z) (h : heap)
    (users : list loc) (filtered : list loc) : heap * list loc :=
  match users with
  | [] => (h, filtered)
  | l :: ls =>
      match h !! l with
      | None => pool_loop m cutoff h ls filtered
      | Some u =>
          let u' := annotate m u in
          pool_loop m cutoff (<[l := u']> h) ls
            (if pool_keep cutoff u' then filtered ++ [l] else filtered)
      end
  end.

(** What the node answers: [RpcNone] when [get_rpc()] is falsy or raises;
    otherwise [Rpc blk bh] with [blk = Some n] when [rpc.getblockcount()]
    returns a value [int] takes to [n] ([None] when either raises), and
    [bh = Some s] when [str(rpc.getbestblockhash())] is [s] ([None] when it
    raises). *)
Inductive rpc_outcome :=
  | RpcNone
  | Rpc (blk : option Z) (bh : option string).

(** The node-height block of [api_pool] on the ["pool"] entry [p] of the
    snapshot: the entry of the cached snapshot after it, and
    [out_snap["pool"]]. [out_snap = dict(snap)] is a shallow copy: when
    ["pool"] is absent, [setdefault] puts a fresh dict into [out_snap]
    only; when it is a dict, that dict is the cached one and is written in
    place; when it rejects item assignment, the assignment raises (after
    [int(blk)] is evaluated) and so does the one of the fallback, which is
    swallowed. *)
Definition node_annotate (rpc : rpc_outcome) (p : pool_field) : pool_field * pool_field :=
  match rpc with
  | RpcNone => (p, p)
  | Rpc blk bh =>
      let fallback :=
        match bh, p with
        | Some s, PoolAbsent => (PoolAbsent, PoolDict {["bestblockhash" := PyStr s]})
        | Some s, PoolDict d =>
            let d' := <["bestblockhash" := PyStr s]> d in (PoolDict d', PoolDict d')
        | _, _ => (p, p)
        end in
      match blk, p with
      | Some n, PoolAbsent =>
          (PoolAbsent, PoolDict (<["height" := PyInt n]> {["block" := PyInt n]}))
      | Some n, PoolDict d =>
          let d' := <["height" := PyInt n]> (<["block" := PyInt n]> d) in
          (PoolDict d', PoolDict d')
      | _, _ => fallback
      end
  end.

(** The answer of [api_pool]: the cache after the call, [out_snap["users"]]
    (the references of [filtered]; the JSON reads the dicts from the heap)
    and [out_snap["pool"]]. The other keys of [out_snap] are those of the
    snapshot, copied. *)
Record pool_answer := mkAnswer {
  pa_cache : pool_cache;
  pa_users : list loc;
  pa_pool : pool_field
}.

Definition api_pool (env_timeout : arg) (now : Z)
    (store : option (list last_seen_row)) (rpc : rpc_outcome) (c : pool_cache)
    : pool_answer :=
  let cutoff := now - Z.max 0 (worker_timeout env_timeout) in
  let last_map := api_pool_last_map store in
  let '(h', filtered) := pool_loop last_map cutoff (pc_heap c) (state_snapshot c) [] in
  let '(p_cache, p_out) := node_annotate rpc (pc_pool c) in
  mkAnswer (mkCache h' (pc_users c) p_cache) filtered p_out.

End ApiPool.

(* ------------------------------------------------------------------ *)
(** ** In-memory history: [HISTORY] and [_bg_sampler] *)

Abbreviation point := (Z * Q)%type.
Abbreviation history := (gmap string (list point)).

(** [HIST_WINDOW_SEC // max(1, SAMPLE_EVERY_SEC)], the [maxlen] of every
    deque of [HISTORY] ([//] is floor division, as [Z.div]). *)
Definition hist_maxlen (hist_window_sec sample_every_sec : Z) : Z :=
  hist_window_sec / Z.max 1 sample_every_sec.

(** [d.append(x)] on a [deque(maxlen=maxlen)] holding at most [maxlen]
    items: nothing happens when [maxlen == 0]; otherwise [x] is appended
    and, when the deque overflows, the leftmost item is dropped. *)
Definition deque_append (maxlen : Z) (d : list point) (x : point) : list point :=
  if Z.eqb maxlen 0 then d
  else
    let d' := d ++ [x] in
    if Z.of_nat (length d') >? maxlen then tail d' else d'.

(** One tick of [_bg_sampler]: [HISTORY[addr].append((ts, v))] for every
    user with a truthy [wallet or address]. On a missing key the
    [defaultdict] builds [deque(maxlen=...)], which raises [ValueError] for
    a negative [maxlen]: the tick stops there (the [except] swallows it) and
    the appends already done stay. *)
Fixpoint sample_tick (maxlen ts : Z) (users : list wallet_rec) (h : history)
    : history :=
  match users with
  | [] => h
  | u :: us =>
      let addr := row_key u in
      match addr with
      | Some a =>
          if truthy addr then
            let v := match py_float_or0 (r_hashrate1m u) with
                     | Some q => q
                     | None => 0%Q
                     end in
            match h !! a with
            | Some d => sample_tick maxlen ts us (<[a := deque_append maxlen d (ts, v)]> h)
            | None =>
                if maxlen <? 0 then h
                else sample_tick maxlen ts us (<[a := deque_append maxlen [] (ts, v)]> h)
            end
          else sample_tick maxlen ts us h
      | None => sample_tick maxlen ts us h
      end
  end.

(** The states [HISTORY] goes through: empty at import, then one
    [sample_tick] per iteration of [_bg_sampler], with the [maxlen] fixed
    by the environment at import time. *)
Inductive hist_reach (hist_window_sec sample_every_sec : Z) : history -> Prop :=
  | hist_reach_init : hist_reach hist_window_sec sample_every_sec ∅
  | hist_reach_tick h ts users :
      hist_reach hist_window_sec sample_every_sec h ->
      hist_reach hist_window_sec sample_every_sec
        (sample_tick (hist_maxlen hist_window_sec sample_every_sec) ts users h).

(* ------------------------------------------------------------------ *)
(** ** [api_history] *)

(** A row [(wallet, ts, hashrate)] of the [wallet_history] table. *)
Record wh_row := mkWh { wh_wallet : string; wh_ts : Z; wh_hashrate : hr_val }.

Definition wh_ts_le (a b : wh_row) : Prop := wh_ts a <= wh_ts b.

Global Instance wh_ts_le_dec : RelDecision wh_ts_le.
Proof. intros a b. unfold wh_ts_le. apply _. Defined.

(** SQLite's evaluation of
    [SELECT ts, hashrate FROM wallet_history WHERE wallet=? AND ts>=?
     ORDER BY ts ASC] (rows of equal [ts] in the order of a stable sort). *)
Definition history_query (rows : list wh_row) (addr : string) (cutoff : Z)
    : list wh_row :=
  merge_sort wh_ts_le
    (List.filter (fun r => String.eqb (wh_wallet r) addr && (cutoff <=? wh_ts r)) rows).

(** [pts = [(int(r[0]), float(r[1] or 0.0)) for r in rows]]; [None] when a
    [float] raises. *)
Fixpoint history_points (rows : list wh_row) : option (list point) :=
  match rows with
  | [] => Some []
  | r :: rs =>
      match py_float_or0 (wh_hashrate r), history_points rs with
      | Some v, Some ps => Some ((wh_ts r, v) :: ps)
      | _, _ => None
      end
  end.

(** [window = int(request.args.get("window", str(6 * 3600)))], [6 * 3600]
    when [int] raises. *)
Definition history_window (a : arg) : Z :=
  match a with
  | Absent => 21600
  | Unparsable => 6 * 3600
  | IntArg n => n
  end.

(** The points of the store path: [None] when anything in the [try] raises. *)
Definition store_points (store : option (list wh_row)) (addr : string) (cutoff : Z)
    : option (list point) :=
  match store with
  | Some rows => history_points (history_query rows addr cutoff)
  | None => None
  end.

(** [[(ts, v) for (ts, v) in HISTORY.get(addr, []) if ts >= cutoff]] *)
Definition memory_points (hist : history) (addr : string) (cutoff : Z)
    : list point :=
  List.filter (fun p => cutoff <=? fst p) (default [] (hist !! addr)).

Definition history_cutoff (window_arg : arg) (now : Z) : Z :=
  now - Z.max 60 (history_window window_arg).

(** [api_history]: the ["points"] of the JSON answer. *)
Definition api_history (window_arg : arg) (now : Z) (store : option (list wh_row))
    (hist : history) (addr : string) : list point :=
  let cutoff := history_cutoff window_arg now in
  match store_points store addr cutoff with
  | Some pts => pts
  | None => memory_points hist addr cutoff
  end.

(* ------------------------------------------------------------------ *)
(** ** [api_wallet_workers] *)

(** A row of the [workers_seen] table. *)
Record ws_row := mkWs {
  ws_wallet : string;
  ws_worker : string;
  ws_active : Z;
  ws_last_seen : Z
}.

(** [WHERE wallet=? AND active=1 AND last_seen>=?] *)
Definition ws_matches (wallet : string) (cutoff : Z) (r : ws_row) : bool :=
  String.eqb (ws_wallet r) wallet && Z.eqb (ws_active r) 1 && (cutoff <=? ws_last_seen r).

(** [ORDER BY last_seen DESC] *)
Definition ws_desc (a b : ws_row) : Prop := ws_last_seen b <= ws_last_seen a.

Global Instance ws_desc_dec : RelDecision ws_desc.
Proof. intros a b. unfold ws_desc. apply _. Defined.

Record workers_resp := mkWorkersResp {
  wr_total : Z;
  wr_workers : list (string * Z)  (** [{"name": r[0], "last_seen": r[1]}] *)
}.

(** [api_wallet_workers]: [total] from the [SELECT COUNT] query, [rows] from the
    [ORDER BY last_seen DESC LIMIT ? OFFSET ?] query; [total = 0] and
    [rows = []] when the store raises. *)
Definition api_wallet_workers (limit_arg offset_arg env_timeout : arg) (now : Z)
    (store : option (list ws_row)) (wallet : string) : workers_resp :=
  let limit := workers_limit limit_arg in
  let offset := workers_offset offset_arg in
  let cutoff := now - worker_timeout env_timeout in
  match store with
  | Some table =>
      let sel := List.filter (ws_matches wallet cutoff) table in
      let rows := firstn (Z.to_nat limit) (skipn (Z.to_nat offset) (merge_sort ws_desc sel)) in
      mkWorkersResp (Z.of_nat (length sel))
        (map (fun r => (ws_worker r, ws_last_seen r)) rows)
  | None => mkWorkersResp 0 []
  end.

(* ------------------------------------------------------------------ *)
(** ** The [/miners] page *)

(** [/miners]: [page = max(int(request.args.get("page", 1)), 1)],
    [size = max(min(int(request.args.get("size", 50)), 200), 10)] and
    [users[start:end]] with [start = (page - 1) * size],
    [end = start + size]. [None] when an [int] raises (no [except]: the
    request fails). The answer is the shown users, [page] and [size]. *)
Definition miners_page (page_arg size_arg : arg) (users : list wallet_rec)
    : option (list wallet_rec * Z * Z) :=
  let page := match page_arg with
              | Absent => Some (Z.max 1 1)
              | Unparsable => None
              | IntArg n => Some (Z.max n 1)
              end in
  match page with
  | None => None
  | Some page =>
      let size := match size_arg with
                  | Absent => Some (Z.max (Z.min 50 200) 10)
                  | Unparsable => None
                  | IntArg n => Some (Z.max (Z.min n 200) 10)
                  end in
      match size with
      | None => None
      | Some size =>
          let start := (page - 1) * size in
          let stop := (page - 1) * size + size in
          Some (firstn (Z.to_nat (stop - start)) (skipn (Z.to_nat start) users), page, size)
      end
  end.

(* ------------------------------------------------------------------ *)
(** ** [_read_fee_from_conf] *)

Definition FEE_KEYS : list string :=
  ["donationpercent"; "donation_percent"; "fee_percent"; "pool_fee"; "fee";
   "operator_fee"; "donation"].

(** [re.split(r"\s*=\s*|\s+", line, maxsplit=1)]: the first match starts at
    the first whitespace or [=]; at a whitespace run the first alternative
    wins when the run is followed by [=]. [None] when there is no match
    (one part only); otherwise the two parts. *)
Fixpoint split_kv (l : list Z) : option (list Z * list Z) :=
  match l with
  | [] => None
  | c :: l' =>
      if c =? 61 then Some ([], lstrip_chars l')
      else if py_isspace c then
        match lstrip_chars l' with
        | c2 :: r2 => if c2 =? 61 then Some ([], lstrip_chars r2)
                      else Some ([], c2 :: r2)
        | [] => Some ([], [])
        end
      else
        match split_kv l' with
        | Some (k, v) => Some (c :: k, v)
        | None => None
        end
  end.

(** The longest prefix of digits ([\d]), and the rest. *)
Fixpoint digit_run (l : list Z) : list Z * list Z :=
  match l with
  | c :: l' => if is_digit c then let '(d, r) := digit_run l' in (c :: d, r) else ([], l)
  | [] => ([], [])
  end.

(** The match of [\d*\.?\d+] at the start of [l], with the backtracking of
    [re]: [D.E] when a dot and a digit follow the digit run [D], else [D]
    when it is non-empty. *)
Definition num_match_at (l : list Z) : option (list Z) :=
  let '(d, r) := digit_run l in
  let d_only := match d with [] => None | _ => Some d end in
  match r with
  | c :: r' =>
      if c =? 46 then
        match fst (digit_run r') with
        | [] => d_only
        | e => Some (d ++ c :: e)
        end
      else d_only
  | [] => d_only
  end.

(** [[-+]?\d*\.?\d+] at the start of [l]: the sign is taken when it leads to
    a match, otherwise the match is retried without it. *)
Definition signed_match_at (l : list Z) : option (list Z) :=
  match l with
  | c :: l' =>
      if (c =? 45) || (c =? 43) then
        match num_match_at l' with
        | Some m => Some (c :: m)
        | None => num_match_at l
        end
      else num_match_at l
  | [] => None
  end.

(** [re.search(r"[-+]?\d*\.?\d+", val)]: the leftmost match. *)
Fixpoint num_search (l : list Z) : option (list Z) :=
  match signed_match_at l with
  | Some m => Some m
  | None => match l with [] => None | _ :: l' => num_search l' end
  end.

Fixpoint digits_val_acc (acc : Z) (l : list Z) : Z :=
  match l with
  | [] => acc
  | c :: l' => digits_val_acc (10 * acc + digit_value c) l'
  end.

(** The integer written by a string of decimal digits. *)
Definition digits_val (l : list Z) : Z := digits_val_acc 0 l.

(** [float(m.group(0))] on a match [[-+]?D(.E)?], as an exact rational
    ([float] reads any decimal digit by its value). *)
Definition float_of_match (m : list Z) : Q :=
  let '(sgn, rest) := match m with
                      | c :: r => if c =? 45 then (-1, r)
                                  else if c =? 43 then (1, r) else (1, m)
                      | [] => (1, m)
                      end in
  let '(d, r) := digit_run rest in
  match r with
  | _ :: e =>
      (inject_Z (sgn * (digits_val d * 10 ^ Z.of_nat (length e) + digits_val e))
       / inject_Z (10 ^ Z.of_nat (length e)))%Q
  | [] => inject_Z (sgn * digits_val d)
  end.

(** [s.startswith(c)] for a one-character [c]. *)
Definition starts_with (c : Z) (s : list Z) : bool :=
  match s with
  | c' :: _ => c =? c'
  | [] => false
  end.

(** [key in FEE_KEYS] *)
Definition is_fee_key (key : list Z) : bool :=
  existsb (fun s => bool_decide (key = utf8_decode s)) FEE_KEYS.

(** The body of the [for raw in f] loop on one line: [Some fee] when the
    line returns it, [None] when the loop goes on. *)
Definition fee_of_line (raw : list Z) : option Q :=
  let line := py_strip raw in
  if bool_decide (line = []) || starts_with 35 line || starts_with 59 line then None
  else
    match split_kv line with
    | None => None
    | Some (k, v) =>
        let key := py_lower (py_strip k) in
        let val := py_strip v in
        if is_fee_key key then
          match num_search val with
          | Some m => Some (float_of_match m)
          | None => None
          end
        else None
  end.

Fixpoint fee_of_lines (lines : list (list Z)) : option Q :=
  match lines with
  | [] => None
  | l :: ls => match fee_of_line l with
               | Some q => Some q
               | None => fee_of_lines ls
               end
  end.

(** [_read_fee_from_conf(path)] on the lines [for raw in f] yields, as code
    points (the file is decoded as UTF-8 with [errors="ignore"]); [None]
    when the path is empty or does not exist. *)
Definition read_fee_from_conf (path : string) (path_exists : bool)
    (lines : list (list Z)) : option Q :=
  if String.eqb path "" || negb path_exists then None
  else fee_of_lines lines.

(* ================================================================== *)
(** * Properties *)

(* ------------------------------------------------------------------ *)
(** ** Pagination arguments of [api_wallet_workers] *)

(** C3 (counterexample): a [limit] below 10 is not raised to 10; [limit=5]
    gives 5, since the lower clamp of the code is 1. *)
Lemma workers_limit_below_10_kept :
  workers_limit (IntArg 5) = 5 /\
  ~ (forall n, n < 10 -> workers_limit (IntArg n) = 10).
Proof.
  split; [reflexivity |].
  intros H. specialize (H 5 ltac:(lia)). discriminate H.
Qed.

(** C3 (amended): [limit] is clamped to [1, 200] (values below 1 become 1,
    above 200 become 200, 50 when absent or unparsable) and [offset] to
    [>= 0] (0 when absent or unparsable). *)
Theorem workers_limit_offset_clamp :
  forall a b,
    (1 <= workers_limit a <= 200) /\ 0 <= workers_offset b /\
    workers_limit Absent = 50 /\ workers_limit Unparsable = 50 /\
    workers_offset Absent = 0 /\ workers_offset Unparsable = 0 /\
    (forall n, workers_limit (IntArg n) =
                 if n <? 1 then 1 else if 200 <? n then 200 else n) /\
    (forall n, workers_offset (IntArg n) = if n <? 0 then 0 else n).
Proof.
  intros a b. repeat split.
  - destruct a; simpl; lia.
  - destruct a; simpl; lia.
  - destruct b; simpl; lia.
  - intros n. simpl. destruct (n <? 1) eqn:E1; [|destruct (200 <? n) eqn:E2];
      rewrite ?Z.ltb_lt, ?Z.ltb_ge in *; lia.
  - intros n. simpl. destruct (n <? 0) eqn:E; rewrite ?Z.ltb_lt, ?Z.ltb_ge in *; lia.
Qed.

(* ------------------------------------------------------------------ *)
(** ** [api_user] *)

Lemma find_wallet_row_find w us :
  find_wallet_row w us = List.find (fun u => key_eqb (row_key u) w) us.
Proof. induction us as [|u us IH]; simpl; [done|]. by rewrite IH. Qed.

Lemma key_eqb_true k w : key_eqb k w = true <-> k = Some w.
Proof.
  destruct k as [s|]; simpl; [|split; discriminate].
  rewrite String.eqb_eq. split; [intros ->|intros [= ->]]; done.
Qed.

Lemma matched_row_nonempty u w :
  key_eqb (row_key u) w = true -> rec_empty u = false.
Proof.
  destruct u as [wa ad us wo hr aw lt ls]; unfold row_key, py_or; simpl.
  destruct wa, ad; simpl; try done.
Qed.

(** C9: [api_user] answers the first snapshot record whose
    [wallet or address] field equals the requested string exactly, and
    404 exactly when no record has that field equal to it. *)
Theorem api_user_first_match_or_404 :
  forall w us,
    api_user w us =
      match List.find (fun u => key_eqb (row_key u) w) us with
      | Some u => UserJson u
      | None => NotFound404
      end /\
    (api_user w us = NotFound404 <-> forall u, In u us -> row_key u <> Some w).
Proof.
  intros w us.
  assert (Hres : api_user w us =
      match List.find (fun u => key_eqb (row_key u) w) us with
      | Some u => UserJson u
      | None => NotFound404
      end).
  { unfold api_user. rewrite find_wallet_row_find.
    destruct (List.find _ us) as [u|] eqn:Hf; [|done].
    apply List.find_some in Hf as [_ Hk].
    by rewrite (matched_row_nonempty u w Hk). }
  split; [exact Hres|]. rewrite Hres.
  destruct (List.find _ us) as [u|] eqn:Hf.
  - apply List.find_some in Hf as [Hin Hk]. split; [discriminate|].
    intros H. exfalso. apply (H u Hin). by apply key_eqb_true.
  - split; [|done]. intros _ u Hin Hk.
    pose proof (List.find_none _ _ Hf u Hin) as Hn.
    apply key_eqb_true in Hk. congruence.
Qed.

(* ------------------------------------------------------------------ *)
(** ** [api_search] *)

Lemma search_loop_filter ql us res :
  search_loop ql us res = res ++ List.filter (rec_matches ql) us.
Proof.
  revert res. induction us as [|u us IH]; intros res; simpl.
  - by rewrite app_nil_r.
  - rewrite IH. destruct (rec_matches ql u); simpl; [by rewrite <- app_assoc|done].
Qed.

Definition rec_abc123 : wallet_rec :=
  mkRec None (Some "abc123") None None HrMissing None None None.

Example search_empty_query : snd (api_search "" [rec_abc123]) = [].
Proof. reflexivity. Qed.

Example search_case_insensitive : snd (api_search "ABC" [rec_abc123]) = [rec_abc123].
Proof. reflexivity. Qed.

Definition rec_cafe : wallet_rec :=
  mkRec None None (Some "café.rig1") None HrMissing None None None.

(** [lower] is not limited to ASCII: ["CAFÉ"] finds ["café.rig1"]. *)
Example search_unicode_case : snd (api_search "CAFÉ" [rec_cafe]) = [rec_cafe].
Proof. vm_compute. reflexivity. Qed.

(** The claim's reading: [q] itself, lowered, is searched for. *)
Definition search_claim (q : string) (users : list wallet_rec) : Prop :=
  snd (api_search q users) =
    match py_strip (utf8_decode q) with
    | [] => []
    | _ => List.filter (rec_matches (py_lower (utf8_decode q))) users
    end.

(** C7 (counterexample): the query is stripped before matching, so
    [" ABC"] matches the address ["abc123"], which does not contain
    [" abc"]. *)
Lemma search_query_is_stripped :
  snd (api_search " ABC" [rec_abc123]) = [rec_abc123] /\
  rec_matches (py_lower (utf8_decode " ABC")) rec_abc123 = false /\
  ~ search_claim " ABC" [rec_abc123].
Proof.
  split; [vm_compute; reflexivity|]. split; [vm_compute; reflexivity|].
  unfold search_claim. vm_compute. discriminate.
Qed.

(** C7 (amended): with [q] the query stripped of surrounding whitespace,
    an empty [q] gives no match; otherwise the matches are exactly the
    records, in snapshot order, one of whose address, wallet, user or
    worker fields contains [q] case-insensitively ([str.lower] on both
    sides). *)
Theorem api_search_stripped_filter :
  forall q users,
    snd (api_search q users) =
      match py_strip (utf8_decode q) with
      | [] => []
      | q' => List.filter (rec_matches (py_lower q')) users
      end.
Proof.
  intros q users. unfold api_search.
  destruct (py_strip (utf8_decode q)) eqn:E; simpl; [done|].
  by rewrite search_loop_filter.
Qed.

(* ------------------------------------------------------------------ *)
(** ** [api_pool] *)

Section ApiPoolProps.

Variable strftime_utc : Z -> option string.


Lemma pool_key_annotate m u : pool_key (annotate strftime_utc m u) = pool_key u.
Proof. by destruct u. Qed.

Lemma annotate_idem m u : annotate strftime_utc m (annotate strftime_utc m u) = annotate strftime_utc m u.
Proof. destruct u; unfold annotate, derived_ts; simpl. done. Qed.

Lemma live_keep_annotate m u : live_keep (annotate strftime_utc m u) = live_keep u.
Proof. by destruct u. Qed.

(** The kept decision for the dict at [l] of the heap [h0] the loop
    started from. *)
Definition keep_at (m : gmap string (option Z)) (cutoff : Z) (h0 : heap) (l : loc) : bool :=
  match h0 !! l with
  | Some u => pool_keep cutoff (annotate strftime_utc m u)
  | None => false
  end.

Lemma pool_loop_spec m cutoff h0 :
  forall users (done : list loc) h acc,
    (forall l, h !! l = if decide (l ∈ done) then annotate strftime_utc m <$> h0 !! l else h0 !! l) ->
    exists hf,
      pool_loop strftime_utc m cutoff h users acc =
        (hf, acc ++ List.filter (keep_at m cutoff h0) users) /\
      (forall l, hf !! l =
         if decide (l ∈ done ++ users) then annotate strftime_utc m <$> h0 !! l else h0 !! l).
Proof.
  induction users as [|l ls IH]; intros done h acc Hh; simpl.
  - exists h. rewrite app_nil_r. split; [done|]. intros l. by rewrite app_nil_r.
  - assert (Hl : h !! l = annotate strftime_utc m <$> h0 !! l \/ h !! l = h0 !! l).
    { rewrite Hh. case_decide; auto. }
    unfold keep_at at 1.
    destruct (h0 !! l) as [u0|] eqn:E0.
    + assert (Hu : exists u, h !! l = Some u /\ annotate strftime_utc m u = annotate strftime_utc m u0).
      { destruct Hl as [Hl|Hl]; rewrite Hl; simpl;
          [eexists; split; [done|apply annotate_idem]|eauto]. }
      destruct Hu as [u [Hhu Hau]]. rewrite Hhu, Hau.
      destruct (IH (done ++ [l]) (<[l := annotate strftime_utc m u0]> h)
                  (if pool_keep cutoff (annotate strftime_utc m u0) then acc ++ [l] else acc))
        as [hf [Hrun Hhf]].
      { intros l'. rewrite lookup_insert. case_decide as Hll.
        - subst l'. rewrite E0, decide_True; [done|]. set_solver.
        - rewrite Hh. repeat case_decide; set_solver. }
      exists hf. split.
      * rewrite Hrun. destruct (pool_keep _ _); simpl; [by rewrite <- app_assoc|done].
      * intros l'. rewrite Hhf. repeat case_decide; set_solver.
    + assert (Hn : h !! l = None) by (destruct Hl as [Hl|Hl]; rewrite Hl; done).
      rewrite Hn.
      destruct (IH (done ++ [l]) h acc) as [hf [Hrun Hhf]].
      { intros l'. rewrite Hh. case_decide; case_decide; try done;
          destruct (decide (l' = l)); subst; try rewrite E0; try done; set_solver. }
      exists hf. split; [done|].
      intros l'. rewrite Hhf. repeat case_decide; set_solver.
Qed.

Lemma api_pool_spec env now store rpc c :
  let m := api_pool_last_map store in
  let cutoff := now - Z.max 0 (worker_timeout env) in
  pc_users (pa_cache (api_pool strftime_utc env now store rpc c)) = pc_users c /\
  pa_users (api_pool strftime_utc env now store rpc c) = List.filter (keep_at m cutoff (pc_heap c)) (pc_users c) /\
  (forall l, pc_heap (pa_cache (api_pool strftime_utc env now store rpc c)) !! l =
     if decide (l ∈ pc_users c) then annotate strftime_utc m <$> pc_heap c !! l else pc_heap c !! l).
Proof.
  intros m cutoff. unfold api_pool, state_snapshot.
  destruct (pool_loop_spec m cutoff (pc_heap c) (pc_users c) [] (pc_heap c) [])
    as [hf [Hrun Hhf]].
  { intros l. by rewrite decide_False by set_solver. }
  fold m cutoff. rewrite Hrun. destruct (node_annotate rpc (pc_pool c)).
  simpl. split; [done|]. split; [done|].
  intros l. by rewrite Hhf.
Qed.

(** The ["pool"] entries, of the cache and of the answer, are those of
    [node_annotate]. *)
Lemma api_pool_pool env now store rpc c :
  pc_pool (pa_cache (api_pool strftime_utc env now store rpc c)) =
    fst (node_annotate rpc (pc_pool c)) /\
  pa_pool (api_pool strftime_utc env now store rpc c) = snd (node_annotate rpc (pc_pool c)).
Proof.
  unfold api_pool. destruct (pool_loop _ _ _ _ _ _).
  by destruct (node_annotate rpc (pc_pool c)).
Qed.

End ApiPoolProps.


Lemma derived_ts_empty u : derived_ts ∅ u = None.
Proof. unfold derived_ts. destruct (pool_key u); [by rewrite lookup_empty|done]. Qed.

Lemma live_keep_iff u :
  live_keep u = true <->
  (exists q, py_float_or0 (r_hashrate1m u) = Some q /\ (0 < q)%Q) \/
  (exists w ws, r_active_workers u = Some (w :: ws)).
Proof.
  unfold live_keep. rewrite orb_true_iff.
  assert (Hq : forall q, negb (Qle_bool q 0) = true <-> (0 < q)%Q).
  { intros q. rewrite negb_true_iff.
    split; intros H.
    - apply Qnot_le_lt. intros Hle. apply Qle_bool_iff in Hle. congruence.
    - destruct (Qle_bool q 0) eqn:E; [|done].
      apply Qle_bool_iff in E. exfalso. by apply (Qlt_not_le _ _ H). }
  split.
  - intros [H|H].
    + left. destruct (py_float_or0 _) as [q|]; [|done]. exists q. by rewrite <- Hq.
    + right. destruct (r_active_workers u) as [[|w ws]|]; try done. eauto.
  - intros [[q [H1 H2]]|[w [ws H]]].
    + left. rewrite H1. by apply Hq.
    + right. by rewrite H.
Qed.

(** The persisted last-seen value of a record: [last_map.get(wallet)] for
    the wallet key the loop derives. *)
Definition persisted_ts (m : gmap string (option Z)) (u : wallet_rec) : option (option Z) :=
  pool_key u ≫= fun w => m !! w.

(** The keep condition of the loop, in terms of the record before the call. *)
Definition kept_by_code (cutoff : Z) (m : gmap string (option Z)) (u : wallet_rec) : Prop :=
  (exists t, persisted_ts m u = Some (Some t) /\ t <> 0 /\ cutoff <= t) \/
  (exists q, py_float_or0 (r_hashrate1m u) = Some q /\ (0 < q)%Q) \/
  (exists w ws, r_active_workers u = Some (w :: ws)).

Lemma pool_keep_annotate_iff fmt cutoff m u :
  pool_keep cutoff (annotate fmt m u) = true <-> kept_by_code cutoff m u.
Proof.
  unfold kept_by_code, pool_keep. rewrite <- live_keep_iff.
  rewrite live_keep_annotate. simpl.
  unfold derived_ts, persisted_ts.
  destruct (pool_key u) as [w|]; simpl.
  2:{ split; [by right|]. intros [[t [H _]]|H]; [discriminate|done]. }
  destruct (m !! w) as [[t|]|]; simpl.
  2,3: split; [by right|]; intros [[t' [H _]]|H]; [discriminate|done].
  destruct (Z.eqb_spec t 0) as [->|Ht].
  - split; [by right|]. intros [[t' [[= <-] [H _]]]|H]; [done|done].
  - destruct (Z.leb_spec cutoff t).
    + split; [intros _; left; eauto|done].
    + split; [by right|]. intros [[t' [[= <-] [_ H']]]|H']; [lia|done].
Qed.

(* ---- C1 ---- *)

Definition rec_idle : wallet_rec :=
  mkRec (Some "w") None None None HrMissing None None None.

Definition cache0 : pool_cache := mkCache {[0%nat := rec_idle]} [0%nat] PoolAbsent.

(** The claim's reading: with the store failing, the users of the answer
    are the snapshot's users. *)
Definition degraded_unfiltered (fmt : Z -> option string) : Prop :=
  forall env now rpc c, pa_users (api_pool fmt env now None rpc c) = pc_users c.

(** C1 (counterexample): with the store failing, a wallet with no
    hashrate and no active worker is still filtered out of the answer. *)
Lemma api_pool_store_failure_drops_idle :
  pa_users (api_pool (fun _ => None) Absent 1000 None RpcNone cache0) = [] /\
  ~ (exists fmt, degraded_unfiltered fmt).
Proof.
  split; [reflexivity|].
  intros [fmt H]. specialize (H Absent 1000 RpcNone cache0). vm_compute in H. discriminate H.
Qed.

(** The record with both annotations set to [None]. *)
Definition null_annotated (u : wallet_rec) : wallet_rec :=
  mkRec (r_wallet u) (r_address u) (r_user u) (r_worker u) (r_hashrate1m u)
        (r_active_workers u) (Some None) (Some None).

(** C1 (amended): when the store fails, [api_pool] still answers; its
    users are the snapshot's users that have a live signal (hashrate1m > 0
    or a non-empty active_workers list), in snapshot order, each with
    [last_seen_ts] and [last_seen] set to null. *)
Theorem api_pool_store_failure_live_filter :
  forall fmt env now rpc c,
    pa_users (api_pool fmt env now None rpc c) =
      List.filter (fun l => match pc_heap c !! l with
                            | Some u => live_keep u
                            | None => false
                            end) (pc_users c) /\
    (forall l, pc_heap (pa_cache (api_pool fmt env now None rpc c)) !! l =
       if decide (l ∈ pc_users c) then null_annotated <$> pc_heap c !! l
       else pc_heap c !! l).
Proof.
  intros fmt env now rpc c.
  destruct (api_pool_spec fmt env now None rpc c) as [_ [Hout Hheap]].
  simpl in Hout, Hheap. split.
  - rewrite Hout. apply List.filter_ext. intros l. unfold keep_at.
    destruct (pc_heap c !! l) as [u|]; [|done].
    unfold pool_keep. simpl. rewrite derived_ts_empty. apply live_keep_annotate.
  - intros l. rewrite Hheap. case_decide; [|done].
    destruct (pc_heap c !! l) as [u|]; [|done]. simpl.
    unfold annotate, null_annotated. by rewrite derived_ts_empty.
Qed.

(* ---- C2 ---- *)

(** The claim's reading: the cached wallet dicts are the same after the
    call. *)
Definition cache_records_untouched (fmt : Z -> option string) : Prop :=
  forall env now store rpc c, pc_heap (pa_cache (api_pool fmt env now store rpc c)) = pc_heap c.

(** C2 (counterexample): one call writes the derived [last_seen_ts] into
    the cached dict of the snapshot. *)
Lemma api_pool_writes_into_cache :
  pc_heap (pa_cache (api_pool (fun _ => None) Absent 1000 (Some [(Some "w", TsInt 100)])
                              RpcNone cache0))
    !! 0%nat ≫= r_last_seen_ts = Some (Some 100) /\
  ~ (exists fmt, cache_records_untouched fmt).
Proof.
  split; [reflexivity|].
  intros [fmt H]. specialize (H Absent 1000 (Some [(Some "w", TsInt 100)]) RpcNone cache0).
  apply (f_equal (fun h : heap => (h !! 0%nat) ≫= r_last_seen_ts)) in H.
  vm_compute in H. discriminate H.
Qed.

(** C2 (amended): [api_pool] leaves the snapshot's users list alone but
    overwrites, in place, the [last_seen_ts] and [last_seen] keys of every
    cached dict of that list (kept or filtered out) with the derived
    values; when the snapshot's ["pool"] is a dict and the node answers, it
    also writes, in place, ["block"] and ["height"] (the block count) or,
    failing that, ["bestblockhash"] into that cached dict; every other key
    and every other dict is unchanged. *)
Theorem api_pool_annotates_cache_in_place :
  forall fmt env now store rpc c,
    pc_users (pa_cache (api_pool fmt env now store rpc c)) = pc_users c /\
    (forall l, pc_heap (pa_cache (api_pool fmt env now store rpc c)) !! l =
       if decide (l ∈ pc_users c)
       then annotate fmt (api_pool_last_map store) <$> pc_heap c !! l
       else pc_heap c !! l) /\
    (forall u, let u' := annotate fmt (api_pool_last_map store) u in
       r_wallet u' = r_wallet u /\ r_address u' = r_address u /\
       r_user u' = r_user u /\ r_worker u' = r_worker u /\
       r_hashrate1m u' = r_hashrate1m u /\
       r_active_workers u' = r_active_workers u /\
       r_last_seen_ts u' = Some (derived_ts (api_pool_last_map store) u) /\
       r_last_seen u' = Some (match derived_ts (api_pool_last_map store) u with
                              | Some t => fmt t
                              | None => None
                              end)) /\
    pc_pool (pa_cache (api_pool fmt env now store rpc c)) =
      match pc_pool c with
      | PoolDict d =>
          PoolDict (match rpc with
                    | Rpc (Some n) _ => <["height" := PyInt n]> (<["block" := PyInt n]> d)
                    | Rpc None (Some s) => <["bestblockhash" := PyStr s]> d
                    | _ => d
                    end)
      | p => p
      end.
Proof.
  intros fmt env now store rpc c.
  destruct (api_pool_spec fmt env now store rpc c) as [Hu [_ Hh]].
  destruct (api_pool_pool fmt env now store rpc c) as [Hp _].
  split; [done|]. split; [done|]. split.
  - intros u. cbn. repeat split.
  - rewrite Hp. by destruct rpc as [|[n|] [s|]], (pc_pool c).
Qed.

(* ---- C5 ---- *)

(** The claim's keep condition: a persisted last-seen at least
    [now - timeout], or a positive hashrate, or a non-empty worker list. *)
Definition claimed_keep (now timeout : Z) (m : gmap string (option Z)) (u : wallet_rec) : Prop :=
  (exists t, persisted_ts m u = Some (Some t) /\ now - timeout <= t) \/
  (exists q, py_float_or0 (r_hashrate1m u) = Some q /\ (0 < q)%Q) \/
  (exists w ws, r_active_workers u = Some (w :: ws)).

Definition keep_iff_claimed (fmt : Z -> option string) : Prop :=
  forall n now store rpc c l u,
    pc_heap c !! l = Some u -> In l (pc_users c) ->
    (In l (pa_users (api_pool fmt (IntArg n) now store rpc c)) <->
     claimed_keep now n (api_pool_last_map store) u).

(** C5 (counterexample): with [WORKER_TIMEOUT=-100] the cutoff is [now]
    (the code takes [max(0, timeout)]), so a wallet last seen at
    [now + 50], idle otherwise, is kept although [now + 50 < now + 100]. *)
Lemma api_pool_negative_timeout_cutoff :
  pa_users (api_pool (fun _ => None) (IntArg (-100)) 1000 (Some [(Some "w", TsInt 1050)])
                     RpcNone cache0)
    = [0%nat] /\
  ~ (exists fmt, keep_iff_claimed fmt).
Proof.
  split; [reflexivity|].
  intros [fmt H].
  specialize (H (-100) 1000 (Some [(Some "w", TsInt 1050)]) RpcNone cache0 0%nat rec_idle
                eq_refl (or_introl eq_refl)).
  destruct H as [H _].
  assert (Hin : In 0%nat (pa_users (api_pool fmt (IntArg (-100)) 1000
                                 (Some [(Some "w", TsInt 1050)]) RpcNone cache0))).
  { vm_compute. left. reflexivity. }
  destruct (H Hin) as [[t [Ht Hle]]|[[q [Hq Hpos]]|[w [ws Hw]]]].
  - vm_compute in Ht. injection Ht as <-. lia.
  - vm_compute in Hq. injection Hq as <-. by apply (Qlt_irrefl 0).
  - discriminate Hw.
Qed.

(** C5 (amended): a snapshot user is in the answer iff its persisted
    last-seen value is non-null, non-zero and at least
    [now - max(0, timeout)], or its hashrate1m parses to a value > 0, or
    its active_workers is a non-empty list. *)
Theorem api_pool_keep_iff :
  forall fmt env now store rpc c l,
    In l (pa_users (api_pool fmt env now store rpc c)) <->
    In l (pc_users c) /\
    exists u, pc_heap c !! l = Some u /\
      kept_by_code (now - Z.max 0 (worker_timeout env)) (api_pool_last_map store) u.
Proof.
  intros fmt env now store rpc c l.
  destruct (api_pool_spec fmt env now store rpc c) as [_ [Hout _]].
  rewrite Hout, List.filter_In. unfold keep_at.
  destruct (pc_heap c !! l) as [u|].
  - rewrite pool_keep_annotate_iff. split.
    + intros [Hin Hk]. eauto.
    + intros [Hin [u' [[= <-] Hk]]]. done.
  - split; [intros [_ H]; discriminate|]. intros [_ [u' [H _]]]. discriminate.
Qed.

(* ---- C10 ---- *)

(** C10: a persisted last-seen of exactly 0 is treated as no record at
    all: both annotations are null, the keep decision is the live signals
    alone, and the annotated record is the one of a map without that
    wallet. *)
Theorem last_seen_zero_is_unknown :
  forall fmt cutoff m u w,
    pool_key u = Some w -> m !! w = Some (Some 0) ->
    r_last_seen_ts (annotate fmt m u) = Some None /\
    r_last_seen (annotate fmt m u) = Some None /\
    pool_keep cutoff (annotate fmt m u) = live_keep u /\
    annotate fmt m u = annotate fmt (delete w m) u.
Proof.
  intros fmt cutoff m u w Hk Hm.
  assert (H1 : derived_ts m u = None) by (unfold derived_ts; by rewrite Hk, Hm).
  assert (H2 : derived_ts (delete w m) u = None)
    by (unfold derived_ts; by rewrite Hk, lookup_delete_eq).
  unfold annotate. rewrite H1, H2. split; [done|]. split; [done|].
  split; [|done]. unfold pool_keep. simpl. by destruct u.
Qed.

Lemma last_seen_zero_is_unknown_witness :
  pool_key rec_idle = Some "w" /\
  ({["w" := Some 0]} : gmap string (option Z)) !! "w" = Some (Some 0) /\
  r_last_seen_ts (annotate (fun _ => None) {["w" := Some 0]} rec_idle) = Some None /\
  r_last_seen (annotate (fun _ => None) {["w" := Some 0]} rec_idle) = Some None /\
  pool_keep 0 (annotate (fun _ => None) {["w" := Some 0]} rec_idle) = live_keep rec_idle /\
  annotate (fun _ => None) {["w" := Some 0]} rec_idle =
    annotate (fun _ => None) (delete "w" {["w" := Some 0]}) rec_idle.
Proof.
  split; [reflexivity|]. split; [reflexivity|].
  apply (last_seen_zero_is_unknown (fun _ => None) 0 {["w" := Some 0]} rec_idle "w");
    reflexivity.
Defined.

(* ------------------------------------------------------------------ *)
(** ** In-memory history *)

Lemma deque_append_length maxlen d x :
  (length d <= Z.to_nat maxlen)%nat ->
  (length (deque_append maxlen d x) <= Z.to_nat maxlen)%nat.
Proof.
  intros Hd. unfold deque_append.
  destruct (Z.eqb_spec maxlen 0) as [->|Hne]; [done|].
  rewrite length_app. simpl.
  destruct (Z.gtb_spec (Z.of_nat (length d + 1)) maxlen) as [Hgt|Hle].
  - destruct d as [|y d]; simpl in *; [lia|]. rewrite length_app. simpl. lia.
  - rewrite length_app. simpl. lia.
Qed.

Lemma deque_append_full maxlen d x :
  1 <= maxlen -> length d = Z.to_nat maxlen ->
  deque_append maxlen d x = tail d ++ [x].
Proof.
  intros H1 Hd. unfold deque_append.
  destruct (Z.eqb_spec maxlen 0) as [Heq|_]; [lia|].
  rewrite length_app. simpl.
  destruct (Z.gtb_spec (Z.of_nat (length d + 1)) maxlen) as [_|Hle]; [|lia].
  destruct d as [|y d]; simpl in *; [lia|done].
Qed.

Definition series_bounded (maxlen : Z) (h : history) : Prop :=
  forall a d, h !! a = Some d -> (length d <= Z.to_nat maxlen)%nat.

Lemma sample_tick_bounded maxlen ts users h :
  series_bounded maxlen h -> series_bounded maxlen (sample_tick maxlen ts users h).
Proof.
  revert h. induction users as [|u us IH]; intros h Hh; simpl; [done|].
  destruct (row_key u) as [a|] eqn:Ea; [|by apply IH].
  destruct (truthy (Some a)); [|by apply IH].
  destruct (h !! a) as [d|] eqn:Ed.
  - apply IH. intros a' d'. rewrite lookup_insert. case_decide.
    + intros [= <-]. apply deque_append_length. by apply (Hh a).
    + apply Hh.
  - destruct (maxlen <? 0); [done|]. apply IH.
    intros a' d'. rewrite lookup_insert. case_decide.
    + intros [= <-]. apply deque_append_length. simpl. lia.
    + apply Hh.
Qed.

(** The claim's reading: the capacity is at least 1 in every
    configuration. *)
Definition capacity_at_least_one : Prop :=
  forall hist_window_sec sample_every_sec, 1 <= hist_maxlen hist_window_sec sample_every_sec.

(** C4 (counterexample): with [HIST_WINDOW_SEC=10] and
    [SAMPLE_EVERY_SEC=30] the [maxlen] is [10 // 30 = 0], and a sampled
    wallet's series stays empty. *)
Lemma history_capacity_can_be_zero :
  hist_maxlen 10 30 = 0 /\
  sample_tick (hist_maxlen 10 30) 1000 [rec_idle] ∅ !! "w" = Some [] /\
  ~ capacity_at_least_one.
Proof.
  split; [reflexivity|]. split; [reflexivity|].
  intros H. specialize (H 10 30). vm_compute in H. apply H. reflexivity.
Qed.

(** C4 (amended): every series of [HISTORY] holds at most
    [HIST_WINDOW_SEC // max(1, SAMPLE_EVERY_SEC)] points (none when that
    is 0 or negative); when it is at least 1, appending to a full series
    drops exactly the oldest point, and appending to a series that is not
    full drops nothing. *)
Theorem history_bounded_fifo :
  forall hist_window_sec sample_every_sec,
    let cap := hist_maxlen hist_window_sec sample_every_sec in
    (forall h, hist_reach hist_window_sec sample_every_sec h ->
       forall a d, h !! a = Some d -> (length d <= Z.to_nat cap)%nat) /\
    (forall d x, 1 <= cap -> length d = Z.to_nat cap ->
       deque_append cap d x = tail d ++ [x]) /\
    (forall d x, 1 <= cap -> (length d < Z.to_nat cap)%nat ->
       deque_append cap d x = d ++ [x]).
Proof.
  intros W S cap. split; [|split].
  - intros h Hr. induction Hr as [|h ts users Hr IH].
    + intros a d. by rewrite lookup_empty.
    + by apply sample_tick_bounded.
  - intros d x. apply deque_append_full.
  - intros d x H1 Hd. unfold deque_append.
    destruct (Z.eqb_spec cap 0) as [Heq|_]; [lia|].
    rewrite length_app. simpl.
    destruct (Z.gtb_spec (Z.of_nat (length d + 1)) cap); [lia|done].
Qed.

(* ------------------------------------------------------------------ *)
(** ** [api_history] *)

Global Instance wh_ts_le_trans : Transitive wh_ts_le.
Proof. intros a b c. unfold wh_ts_le. lia. Qed.

Global Instance wh_ts_le_total : Total wh_ts_le.
Proof. intros a b. unfold wh_ts_le. lia. Qed.

Lemma map_as_fmap {A B} (f : A -> B) (l : list A) : List.map f l = f <$> l.
Proof. induction l as [|x l IH]; simpl; [done|]. by rewrite IH. Qed.

Lemma history_points_ts rows pts :
  history_points rows = Some pts -> List.map fst pts = List.map wh_ts rows.
Proof.
  revert pts. induction rows as [|r rs IH]; intros pts; simpl.
  - by intros [= <-].
  - destruct (py_float_or0 _), (history_points rs) as [ps|] eqn:E; try discriminate.
    intros [= <-]. simpl. by rewrite (IH ps eq_refl).
Qed.

(** C6: [api_history] answers the store's points when the store query
    succeeds: ts ascending, all at or after [now - max(60, window)], and
    the timestamps of exactly the wallet's rows in that range; when
    anything on the store path fails it answers the wallet's in-memory
    points at or after the same cutoff, in their retained order. *)
Theorem api_history_store_or_memory :
  forall window_arg now store hist addr,
    let cutoff := now - Z.max 60 (history_window window_arg) in
    let pts := api_history window_arg now store hist addr in
    (forall p, In p pts -> cutoff <= fst p) /\
    ((exists rows,
        store = Some rows /\ store_points store addr cutoff = Some pts /\
        StronglySorted Z.le (List.map fst pts) /\
        List.map fst pts ≡ₚ
          List.map wh_ts (List.filter (fun r => String.eqb (wh_wallet r) addr
                                                && (cutoff <=? wh_ts r)) rows)) \/
     (store_points store addr cutoff = None /\
      pts = List.filter (fun p => cutoff <=? fst p) (default [] (hist !! addr)))).
Proof.
  intros wa now store hist addr cutoff pts.
  unfold pts, api_history. fold (history_cutoff wa now). unfold history_cutoff. fold cutoff.
  destruct (store_points store addr cutoff) as [ps|] eqn:Es.
  - unfold store_points in Es. destruct store as [rows|]; [|discriminate].
    pose proof (history_points_ts _ _ Es) as Hts.
    set (sel := List.filter (fun r => String.eqb (wh_wallet r) addr && (cutoff <=? wh_ts r)) rows).
    assert (Hperm : merge_sort wh_ts_le sel ≡ₚ sel) by apply merge_sort_Permutation.
    split.
    + intros p Hp.
      assert (Hin : In (fst p) (List.map wh_ts (history_query rows addr cutoff))).
      { rewrite <- Hts. by apply in_map. }
      apply in_map_iff in Hin as [r [Hr Hin]].
      unfold history_query in Hin. fold sel in Hin.
      apply list_elem_of_In in Hin. rewrite Hperm in Hin. apply list_elem_of_In in Hin.
      unfold sel in Hin. apply List.filter_In in Hin as [_ Hm].
      apply andb_true_iff in Hm as [_ Hc]. apply Z.leb_le in Hc. lia.
    + left. exists rows. split; [done|]. split; [done|]. split.
      * rewrite Hts. unfold history_query. fold sel. rewrite map_as_fmap.
        apply (StronglySorted_fmap wh_ts wh_ts_le Z.le); [done|].
        apply StronglySorted_merge_sort; apply _.
      * rewrite Hts. unfold history_query. fold sel. by rewrite Hperm.
  - split.
    + intros p Hp. unfold memory_points in Hp. apply List.filter_In in Hp as [_ Hp].
      by apply Z.leb_le.
    + right. done.
Qed.

(* ------------------------------------------------------------------ *)
(** ** [api_wallet_workers] *)

Global Instance ws_desc_trans : Transitive ws_desc.
Proof. intros a b c. unfold ws_desc. lia. Qed.

Global Instance ws_desc_total : Total ws_desc.
Proof. intros a b. unfold ws_desc. lia. Qed.

Definition rig_off : ws_row := mkWs "w" "rig1" 0 1000.

(** The claim's reading: [total] counts the wallet's workers whose
    [last_seen] is within the staleness timeout. *)
Definition total_counts_recent : Prop :=
  forall limit_arg offset_arg env now table wallet,
    wr_total (api_wallet_workers limit_arg offset_arg env now (Some table) wallet) =
    Z.of_nat (length (List.filter
      (fun r => String.eqb (ws_wallet r) wallet
                && (now - worker_timeout env <=? ws_last_seen r)) table)).

(** C8 (counterexample): a worker row of the wallet seen just now but
    flagged [active=0] is not counted in [total]. *)
Lemma wallet_workers_total_needs_active :
  wr_total (api_wallet_workers Absent Absent Absent 1000 (Some [rig_off]) "w") = 0 /\
  ~ total_counts_recent.
Proof.
  split; [reflexivity|].
  intros H. specialize (H Absent Absent Absent 1000 [rig_off] "w").
  vm_compute in H. discriminate H.
Qed.

(** C8 (amended): [api_wallet_workers] answers at most [limit] workers,
    ordered by [last_seen] descending, taken from position [offset] of the
    wallet's rows with [active = 1] and [last_seen >= now - timeout]
    (sorted by [last_seen] descending); [total] is the number of those rows
    and does not depend on [limit] or [offset]; when the store fails,
    [total] is 0 and the list is empty. *)
Theorem api_wallet_workers_page :
  forall limit_arg offset_arg env now store wallet,
    let r := api_wallet_workers limit_arg offset_arg env now store wallet in
    let cutoff := now - worker_timeout env in
    (length (wr_workers r) <= Z.to_nat (workers_limit limit_arg))%nat /\
    StronglySorted (fun a b => b <= a) (List.map snd (wr_workers r)) /\
    (forall limit_arg' offset_arg',
       wr_total (api_wallet_workers limit_arg' offset_arg' env now store wallet) = wr_total r) /\
    match store with
    | Some table =>
        let sel := List.filter (ws_matches wallet cutoff) table in
        wr_total r = Z.of_nat (length sel) /\
        exists sorted,
          sorted ≡ₚ sel /\ StronglySorted ws_desc sorted /\
          wr_workers r =
            List.map (fun w => (ws_worker w, ws_last_seen w))
              (firstn (Z.to_nat (workers_limit limit_arg))
                 (skipn (Z.to_nat (workers_offset offset_arg)) sorted))
    | None => wr_total r = 0 /\ wr_workers r = []
    end.
Proof.
  intros la oa env now store wallet r cutoff.
  unfold r, api_wallet_workers. fold cutoff.
  destruct store as [table|]; simpl; [|repeat split; try constructor; lia].
  set (sel := List.filter (ws_matches wallet cutoff) table).
  assert (Hs : StronglySorted ws_desc (merge_sort ws_desc sel))
    by (apply StronglySorted_merge_sort; apply _).
  assert (Hpage : StronglySorted ws_desc
            (firstn (Z.to_nat (workers_limit la))
               (skipn (Z.to_nat (workers_offset oa)) (merge_sort ws_desc sel)))).
  { rewrite <- (firstn_skipn (Z.to_nat (workers_offset oa)) (merge_sort ws_desc sel)) in Hs.
    apply StronglySorted_app_1_r in Hs.
    rewrite <- (firstn_skipn (Z.to_nat (workers_limit la))
                  (skipn (Z.to_nat (workers_offset oa)) (merge_sort ws_desc sel))) in Hs.
    by apply StronglySorted_app_1_l in Hs. }
  split; [|split; [|split]].
  - rewrite length_map, length_firstn. lia.
  - rewrite map_map. simpl. rewrite map_as_fmap.
    by apply (StronglySorted_fmap ws_last_seen ws_desc (fun a b => b <= a)).
  - intros la' oa'. done.
  - split; [done|]. exists (merge_sort ws_desc sel). split; [apply merge_sort_Permutation|].
    by split.
Qed.

(* ================================================================== *)
(** * Further properties of the code *)

(* ------------------------------------------------------------------ *)
(** ** [/miners] pagination *)

(** [/miners] answers a page [>= 1] and a size in [10, 200], and shows the
    users at positions [(page - 1) * size] to [(page - 1) * size + size - 1]
    of the snapshot, in order (fewer near the end of the list). *)
Theorem miners_page_shows_slice :
  forall page_arg size_arg users shown page size,
    miners_page page_arg size_arg users = Some (shown, page, size) ->
    1 <= page /\ 10 <= size <= 200 /\
    forall i, shown !! i =
      if decide (i < Z.to_nat size)%nat
      then users !! (Z.to_nat ((page - 1) * size) + i)%nat else None.
Proof.
  intros pa sa users shown page size H.
  unfold miners_page in H.
  destruct pa as [| |p]; [|discriminate|]; destruct sa as [| |s]; try discriminate;
    injection H as <- <- <-;
    (split; [lia|]; split; [lia|]; intros i;
     rewrite Z.add_simpl_l; case_decide;
     [rewrite lookup_take_lt by done; apply lookup_drop
     |apply lookup_take_ge; lia]).
Qed.

Definition users12 : list wallet_rec :=
  List.map (fun s => mkRec (Some s) None None None HrMissing None None None)
    ["a"; "b"; "c"; "d"; "e"; "f"; "g"; "h"; "i"; "j"; "k"; "l"].

Lemma miners_page_shows_slice_witness :
  miners_page (IntArg 2) (IntArg 10) users12 = Some (skipn 10 users12, 2, 10) /\
  1 <= 2 /\ 10 <= 10 <= 200 /\
  forall i, skipn 10 users12 !! i =
    if decide (i < Z.to_nat 10)%nat
    then users12 !! (Z.to_nat ((2 - 1) * 10) + i)%nat else None.
Proof.
  assert (H : miners_page (IntArg 2) (IntArg 10) users12 = Some (skipn 10 users12, 2, 10))
    by reflexivity.
  split; [exact H|].
  exact (miners_page_shows_slice (IntArg 2) (IntArg 10) users12 (skipn 10 users12) 2 10 H).
Defined.

(** For a given [size] argument, the user at index [i] of the snapshot is
    shown on page [i / size + 1], at position [i mod size]. *)
Theorem miners_page_user_on_its_page :
  forall n users (i : nat),
    let size := Z.max (Z.min n 200) 10 in
    match miners_page (IntArg (Z.of_nat i / size + 1)) (IntArg n) users with
    | Some (shown, _, _) => shown !! Z.to_nat (Z.of_nat i mod size) = users !! i
    | None => False
    end.
Proof.
  intros n users i size. unfold miners_page. fold size.
  assert (Hs : 10 <= size) by (unfold size; lia).
  pose proof (Z.div_mod (Z.of_nat i) size ltac:(lia)) as Hdm.
  pose proof (Z.mod_pos_bound (Z.of_nat i) size ltac:(lia)) as Hmb.
  assert (Hq : 0 <= Z.of_nat i / size) by (apply Z.div_pos; lia).
  rewrite Z.add_simpl_l.
  rewrite lookup_take_lt by lia. rewrite lookup_drop. f_equal.
  rewrite Z.max_l by lia. replace (Z.of_nat i / size + 1 - 1) with (Z.of_nat i / size) by lia.
  nia.
Qed.

(* ------------------------------------------------------------------ *)
(** ** [wallet_last_seen_map] *)

Definition row_of_wallet (w : string) (r : last_seen_row) : bool :=
  match fst r with
  | Some w' => String.eqb w' w
  | None => false
  end.

(** The value a row stores, [None] when its [int(ts)] raises. *)
Definition row_ts (r : last_seen_row) : option (option Z) :=
  match snd r with
  | TsNull => Some None
  | TsInt n => Some (Some n)
  | TsBad => None
  end.

Lemma last_seen_rows_lookup rows out w :
  last_seen_rows rows out !! w =
    match last (omap row_ts (List.filter (row_of_wallet w) rows)) with
    | Some v => Some v
    | None => out !! w
    end.
Proof.
  revert out. induction rows as [|[[w'|] ts] rs IH]; intros out; [done| |apply IH].
  cbn [List.filter]. unfold row_of_wallet at 1. cbn [fst].
  destruct (String.eqb_spec w' w) as [->|Hne].
  - destruct ts as [|n|]; cbn [last_seen_rows]; rewrite IH.
    + assert (E : forall l : list last_seen_row,
                 omap (M:=list) row_ts ((Some w, TsNull) :: l) = None :: omap row_ts l) by done.
      rewrite E, last_cons. destruct (last _); [done|]. by rewrite lookup_insert_eq.
    + assert (E : forall l : list last_seen_row,
                 omap (M:=list) row_ts ((Some w, TsInt n) :: l) = Some n :: omap row_ts l) by done.
      rewrite E, last_cons. destruct (last _); [done|]. by rewrite lookup_insert_eq.
    + done.
  - destruct ts as [|n|]; cbn [last_seen_rows]; rewrite IH;
      (destruct (last _); [done|]); try (by rewrite lookup_insert_ne); done.
Qed.

(** [wallet_last_seen_map] maps a wallet to the value of its last row in
    the query result, skipping the rows with a [NULL] wallet and those
    whose [int(last_seen)] raises; it has no entry for a wallet without
    such a row. A failing [execute] gives [{}], a failing [fetchall]
    raises. *)
Theorem wallet_last_seen_map_lookup :
  forall q w,
    (fun m => m !! w) <$> wallet_last_seen_map q =
      match q with
      | LsExecRaises => Some None
      | LsFetchRaises => None
      | LsRows rows => Some (last (omap row_ts (List.filter (row_of_wallet w) rows)))
      end.
Proof.
  intros [| |rows] w; simpl; [by rewrite lookup_empty|done|].
  f_equal. rewrite last_seen_rows_lookup, lookup_empty. by destruct (last _).
Qed.

(* ------------------------------------------------------------------ *)
(** ** Repeated [/api/pool] requests *)

Lemma node_annotate_idem rpc p :
  node_annotate rpc (fst (node_annotate rpc p)) = node_annotate rpc p.
Proof.
  destruct rpc as [|[n|] [s|]], p as [|d|]; simpl; try reflexivity;
    (f_equal; f_equal; apply map_eq; intros k; rewrite !lookup_insert;
     repeat case_decide; congruence).
Qed.

(** A second [/api/pool] request with the same store, time, timeout and
    node answers leaves the cache as the first left it and gives the same
    answer: the in-place annotations are stable. *)
Theorem api_pool_repeat_stable :
  forall fmt env now store rpc c,
    api_pool fmt env now store rpc (pa_cache (api_pool fmt env now store rpc c)) =
    api_pool fmt env now store rpc c.
Proof.
  intros fmt env now store rpc c.
  set (c1 := pa_cache (api_pool fmt env now store rpc c)).
  destruct (api_pool_spec fmt env now store rpc c) as [Hu1 [Ho1 Hh1]].
  destruct (api_pool_spec fmt env now store rpc c1) as [Hu2 [Ho2 Hh2]].
  destruct (api_pool_pool fmt env now store rpc c) as [Hp1 Hq1].
  destruct (api_pool_pool fmt env now store rpc c1) as [Hp2 Hq2].
  fold c1 in Hu1, Hh1, Hp1.
  rewrite Hp1, node_annotate_idem in Hp2, Hq2.
  set (m := api_pool_last_map store) in *.
  set (cutoff := now - Z.max 0 (worker_timeout env)) in *.
  destruct (api_pool fmt env now store rpc c1) as [c2 o2 p2] eqn:E2.
  destruct (api_pool fmt env now store rpc c) as [c1' o1 p1] eqn:E1.
  simpl in *. subst c1.
  f_equal.
  - destruct c2 as [h2 u2 q2], c1' as [h1 u1 q1]. simpl in *. subst.
    f_equal. apply map_eq. intros l. rewrite Hh2, Hh1.
    case_decide; [|done]. destruct (pc_heap c !! l); simpl; [|done].
    by rewrite annotate_idem.
  - rewrite Ho2, Ho1, Hu1. apply List.filter_ext_in. intros l Hl.
    unfold keep_at. rewrite Hh1, decide_True by (by apply list_elem_of_In).
    destruct (pc_heap c !! l); simpl; [|done]. by rewrite annotate_idem.
  - by rewrite Hq2, Hq1.
Qed.

(** The users of [/api/pool] are a subsequence of the snapshot's users:
    the view never adds, duplicates beyond the snapshot or reorders them. *)
Theorem api_pool_users_sublist :
  forall fmt env now store rpc c,
    pa_users (api_pool fmt env now store rpc c) `sublist_of` pc_users c.
Proof.
  intros fmt env now store rpc c.
  destruct (api_pool_spec fmt env now store rpc c) as [_ [Ho _]]. rewrite Ho.
  generalize (pc_users c). intros us.
  induction us as [|l us IH]; simpl; [done|].
  destruct (keep_at _ _ _ _ l); [by apply sublist_skip|by apply sublist_cons].
Qed.

(* ------------------------------------------------------------------ *)
(** ** The sampler *)

(** A sampler tick touches only the series of the wallets it samples:
    a wallet that is the [wallet or address] of no snapshot user keeps its
    series (or its absence). *)
Theorem sample_tick_frame :
  forall maxlen ts users h a,
    (forall u, In u users -> row_key u <> Some a) ->
    sample_tick maxlen ts users h !! a = h !! a.
Proof.
  intros maxlen ts users. induction users as [|u us IH]; intros h a Ha; simpl; [done|].
  assert (Hus : forall u', In u' us -> row_key u' <> Some a) by (intros; apply Ha; by right).
  assert (Hu : row_key u <> Some a) by (apply Ha; by left).
  destruct (row_key u) as [a'|] eqn:Ek; [|by apply IH].
  assert (Hne : a' <> a) by congruence.
  destruct (truthy (Some a')); [|by apply IH].
  destruct (h !! a') as [d|].
  - rewrite IH by done. by rewrite lookup_insert_ne.
  - destruct (maxlen <? 0); [done|]. rewrite IH by done. by rewrite lookup_insert_ne.
Qed.

Lemma sample_tick_frame_witness :
  (forall u, In u [rec_idle] -> row_key u <> Some "x") /\
  sample_tick 2 1000 [rec_idle] ∅ !! "x" = (∅ : history) !! "x".
Proof.
  assert (H : forall u, In u [rec_idle] -> row_key u <> Some "x").
  { intros u [<-|[]]. discriminate. }
  split; [exact H|]. apply (sample_tick_frame 2 1000 [rec_idle] ∅ "x"). exact H.
Defined.

Lemma deque_append_last maxlen d x :
  1 <= maxlen -> last (deque_append maxlen d x) = Some x.
Proof.
  intros H. unfold deque_append.
  destruct (Z.eqb_spec maxlen 0); [lia|].
  destruct (Z.gtb_spec (Z.of_nat (length (d ++ [x]))) maxlen) as [Hg|Hg].
  - destruct d as [|y d]; [simpl in Hg; lia|]. simpl. apply last_snoc.
  - apply last_snoc.
Qed.

Lemma sample_tick_keeps_sampled maxlen ts users h a :
  1 <= maxlen ->
  (exists d v, h !! a = Some d /\ last d = Some (ts, v)) ->
  exists d v, sample_tick maxlen ts users h !! a = Some d /\ last d = Some (ts, v).
Proof.
  intros Hm. revert h. induction users as [|u us IH]; intros h Hh; simpl; [done|].
  destruct (row_key u) as [a'|]; [|by apply IH].
  destruct (truthy (Some a')); [|by apply IH].
  destruct (h !! a') as [d|] eqn:Ed; [|destruct (Z.ltb_spec maxlen 0); [lia|]];
    apply IH; destruct (decide (a' = a)) as [->|Hne];
    try (by eexists _, _; rewrite lookup_insert_eq; split; [done|apply deque_append_last]);
    (destruct Hh as [d' [v [Hd Hl]]]; exists d', v; by rewrite lookup_insert_ne).
Qed.

(** With a capacity of at least 1, after a sampler tick at time [ts] every
    sampled wallet (a truthy [wallet or address]) has a series whose newest
    point is at [ts]. *)
Theorem sample_tick_records_sample :
  forall maxlen ts users h u a,
    1 <= maxlen -> In u users -> row_key u = Some a -> a <> "" ->
    exists d v, sample_tick maxlen ts users h !! a = Some d /\ last d = Some (ts, v).
Proof.
  intros maxlen ts users h u a Hm. revert h.
  induction users as [|u' us IH]; intros h Hin Hk Ha; [destruct Hin|]; simpl.
  destruct Hin as [<-|Hin].
  - rewrite Hk. assert (Ht : truthy (Some a) = true).
    { simpl. destruct (String.eqb_spec a ""); [done|reflexivity]. }
    rewrite Ht.
    destruct (h !! a) as [d|]; [|destruct (Z.ltb_spec maxlen 0); [lia|]];
      apply sample_tick_keeps_sampled; try done;
      eexists _, _; rewrite lookup_insert_eq; (split; [done|by apply deque_append_last]).
  - destruct (row_key u') as [a'|]; [|by apply IH].
    destruct (truthy (Some a')); [|by apply IH].
    destruct (h !! a'); [by apply IH|].
    destruct (Z.ltb_spec maxlen 0); [lia|]. by apply IH.
Qed.

Lemma sample_tick_records_sample_witness :
  1 <= 2 /\ In rec_idle [rec_idle] /\ row_key rec_idle = Some "w" /\ "w" <> "" /\
  exists d v, sample_tick 2 1000 [rec_idle] ∅ !! "w" = Some d /\ last d = Some (1000, v).
Proof.
  assert (H1 : 1 <= 2) by lia.
  assert (H2 : In rec_idle [rec_idle]) by (left; reflexivity).
  assert (H3 : row_key rec_idle = Some "w") by reflexivity.
  assert (H4 : "w" <> "") by discriminate.
  split; [exact H1|]. split; [exact H2|]. split; [exact H3|]. split; [exact H4|].
  exact (sample_tick_records_sample 2 1000 [rec_idle] ∅ rec_idle "w" H1 H2 H3 H4).
Defined.

(* ------------------------------------------------------------------ *)
(** ** [api_history]: the window *)

(** The window is at least 60 seconds: asking for [window <= 60] answers
    the same points as [window = 60], on the store path and the memory
    path alike. *)
Theorem api_history_window_floor :
  forall n now store hist addr,
    n <= 60 ->
    api_history (IntArg n) now store hist addr = api_history (IntArg 60) now store hist addr.
Proof.
  intros n now store hist addr Hn. unfold api_history, history_cutoff, history_window.
  by replace (Z.max 60 n) with (Z.max 60 60) by lia.
Qed.

Definition hist_w : history := {["w" := [(930, 1%Q); (950, 2%Q); (990, 3%Q)]]}.

Lemma api_history_window_floor_witness :
  5 <= 60 /\
  api_history (IntArg 5) 1000 None hist_w "w" = api_history (IntArg 60) 1000 None hist_w "w" /\
  api_history (IntArg 60) 1000 None hist_w "w" = [(950, 2%Q); (990, 3%Q)].
Proof.
  assert (H : 5 <= 60) by lia.
  split; [exact H|]. split; [exact (api_history_window_floor 5 1000 None hist_w "w" H)|].
  reflexivity.
Defined.

Lemma filter_cutoff_mono (c1 c2 : Z) (l : list point) :
  c2 <= c1 ->
  List.filter (fun p => c1 <=? fst p) l =
  List.filter (fun p => c1 <=? fst p) (List.filter (fun p => c2 <=? fst p) l).
Proof.
  intros Hc. induction l as [|p l IH]; simpl; [done|].
  destruct (Z.leb_spec c1 (fst p)), (Z.leb_spec c2 (fst p)); simpl;
    try (destruct (Z.leb_spec c1 (fst p)); try lia); by rewrite <- IH.
Qed.

(** Without the store, a narrower window answers exactly the points of a
    wider one that fall in the narrower window: the in-memory answers of
    two windows are nested. *)
Theorem api_history_memory_window_nested :
  forall w1 w2 now hist addr,
    w1 <= w2 ->
    api_history (IntArg w1) now None hist addr =
    List.filter (fun p => history_cutoff (IntArg w1) now <=? fst p)
      (api_history (IntArg w2) now None hist addr).
Proof.
  intros w1 w2 now hist addr Hw. unfold api_history. simpl. unfold memory_points.
  apply filter_cutoff_mono. unfold history_cutoff, history_window. lia.
Qed.

Lemma api_history_memory_window_nested_witness :
  60 <= 120 /\
  api_history (IntArg 60) 1000 None {["w" := [(900, 1%Q); (950, 2%Q)]]} "w" =
  List.filter (fun p => history_cutoff (IntArg 60) 1000 <=? fst p)
    (api_history (IntArg 120) 1000 None {["w" := [(900, 1%Q); (950, 2%Q)]]} "w").
Proof.
  assert (H : 60 <= 120) by lia.
  split; [exact H|].
  exact (api_history_memory_window_nested 60 120 1000 {["w" := [(900, 1%Q); (950, 2%Q)]]} "w" H).
Defined.

Lemma list_filter_length_le {A} (f : A -> bool) (l : list A) :
  (length (List.filter f l) <= length l)%nat.
Proof. induction l as [|x l IH]; simpl; [lia|]. destruct (f x); simpl; lia. Qed.

Lemma reach_series_bounded W S h :
  hist_reach W S h ->
  forall a d, h !! a = Some d -> (length d <= Z.to_nat (hist_maxlen W S))%nat.
Proof.
  intros Hr. induction Hr as [|h ts users Hr IH].
  - intros a d. by rewrite lookup_empty.
  - by apply sample_tick_bounded.
Qed.

(** When the store fails, [api_history] answers at most
    [HIST_WINDOW_SEC // max(1, SAMPLE_EVERY_SEC)] points, whatever the
    window, for any [HISTORY] the sampler can build. *)
Theorem api_history_memory_bounded :
  forall W S h window_arg now addr,
    hist_reach W S h ->
    (length (api_history window_arg now None h addr) <= Z.to_nat (hist_maxlen W S))%nat.
Proof.
  intros W S h window_arg now addr Hr. unfold api_history. simpl. unfold memory_points.
  destruct (h !! addr) as [d|] eqn:Ed; simpl; [|lia].
  etransitivity; [apply list_filter_length_le|]. by eapply reach_series_bounded.
Qed.

Lemma api_history_memory_bounded_witness :
  hist_reach 21600 60 (sample_tick (hist_maxlen 21600 60) 1000 [rec_idle] ∅) /\
  (length (api_history Absent 1000 None
             (sample_tick (hist_maxlen 21600 60) 1000 [rec_idle] ∅) "w")
   <= Z.to_nat (hist_maxlen 21600 60))%nat.
Proof.
  assert (H : hist_reach 21600 60 (sample_tick (hist_maxlen 21600 60) 1000 [rec_idle] ∅)).
  { apply hist_reach_tick. apply hist_reach_init. }
  split; [exact H|]. exact (api_history_memory_bounded _ _ _ Absent 1000 "w" H).
Defined.

(* ------------------------------------------------------------------ *)
(** ** [_read_fee_from_conf] *)

(** The first line of the file that yields a fee decides: the lines after
    it are never looked at. *)
Theorem read_fee_from_conf_first_line_wins :
  forall path path_exists ls1 ls2,
    read_fee_from_conf path path_exists (ls1 ++ ls2) =
    match read_fee_from_conf path path_exists ls1 with
    | Some q => Some q
    | None => read_fee_from_conf path path_exists ls2
    end.
Proof.
  intros path ex ls1 ls2. unfold read_fee_from_conf.
  destruct (String.eqb path "" || negb ex); [done|].
  induction ls1 as [|l ls1 IH]; simpl; [done|].
  by destruct (fee_of_line l).
Qed.

Lemma lstrip_spaces_app ws l :
  forallb py_isspace ws = true -> lstrip_chars (ws ++ l) = lstrip_chars l.
Proof.
  induction ws as [|c ws IH]; simpl; [done|].
  intros [Hc Hw]%andb_prop. rewrite Hc. by apply IH.
Qed.
















Lemma lstrip_chars_snoc l c :
  py_isspace c = false -> lstrip_chars (l ++ [c]) = lstrip_chars l ++ [c].
Proof.
  intros Hc. induction l as [|x l IH]; simpl; [by rewrite Hc|].
  by destruct (py_isspace x).
Qed.

(** A line whose first non-whitespace character is [#] or [;] is a comment:
    it never yields a fee, and the file is read on as if it were absent. *)
Theorem read_fee_from_conf_skips_comments :
  forall path path_exists ws c rest ls,
    forallb py_isspace ws = true -> c = 35 \/ c = 59 ->
    read_fee_from_conf path path_exists ((ws ++ c :: rest) :: ls) =
    read_fee_from_conf path path_exists ls.
Proof.
  intros path ex ws c rest ls Hws Hc. unfold read_fee_from_conf.
  destruct (String.eqb path "" || negb ex); [done|]. simpl.
  assert (Hsp : py_isspace c = false) by (destruct Hc as [-> | ->]; reflexivity).
  assert (Hs : py_strip (ws ++ c :: rest) = c :: rev (lstrip_chars (rev rest))).
  { unfold py_strip. rewrite lstrip_spaces_app by done.
    simpl. rewrite Hsp. simpl. rewrite lstrip_chars_snoc by done. rewrite rev_app_distr. reflexivity. }
  unfold fee_of_line. rewrite Hs. rewrite bool_decide_false by discriminate.
  by destruct Hc as [-> | ->].
Qed.

Lemma read_fee_from_conf_skips_comments_witness :
  forallb py_isspace [32] = true /\ (35 = 35 \/ 35 = 59) /\
  read_fee_from_conf "ckpool.conf" true (([32] ++ 35 :: utf8_decode "fee = 9")
     :: [utf8_decode "fee = 1.5"]) =
  read_fee_from_conf "ckpool.conf" true [utf8_decode "fee = 1.5"] /\
  read_fee_from_conf "ckpool.conf" true [utf8_decode "fee = 1.5"] = Some (15 # 10)%Q.
Proof.
  assert (H1 : forallb py_isspace [32] = true) by reflexivity.
  assert (H2 : 35 = 35 \/ 35 = 59) by (left; reflexivity).
  split; [exact H1|]. split; [exact H2|]. split.
  - exact (read_fee_from_conf_skips_comments "ckpool.conf" true [32] 35
             (utf8_decode "fee = 9") [utf8_decode "fee = 1.5"] H1 H2).
  - vm_compute. reflexivity.
Defined.

